(** * GXP image chunking: the MQTT chunk reassembly handler of [app.py]

    A shallow embedding of [GXP_ImageChunkingProject/app.py]: the three
    module-level buffers, the [on_message] callback and
    [upload_image_and_insert].  Prints, storage uploads and table inserts
    are recorded as a trace of effects; Python exceptions are an explicit
    outcome. *)

From Stdlib Require Import Strings.Byte.
From stdpp Require Import gmap strings list fin_maps pretty.

Local Open Scope string_scope.
Local Open Scope list_scope.
Local Open Scope Z_scope.

(** ** Python values *)

(** A Python [bytes] object. *)
Abbreviation bytes := (list byte).

#[global] Instance byte_eq_dec : EqDecision byte := Byte.byte_eq_dec.

(** [b[i]] on a [bytes] object yields an [int] in [0, 256). *)
Definition byte_to_int (b : byte) : Z := Z.of_N (Byte.to_N b).

(** [range(n)] for an [int] [n]: empty when [n <= 0]. *)
Definition range (n : Z) : list Z := Z.of_nat <$> seq 0 (Z.to_nat n).

(** A value read out of the dictionary [json.loads] yields, or [None]: as
    much of it as the program can tell apart.  [PyOther] stands for a
    float, a list or a dictionary, and carries what [str] prints for it. *)
Inductive pyvalue :=
  | PyNone
  | PyBool (b : bool)
  | PyInt (z : Z)
  | PyStr (s : string)
  | PyOther (text : string).

#[global] Instance pyvalue_eq_dec : EqDecision pyvalue.
Proof. solve_decision. Defined.

(** [str(x)], as an f-string formats [x]. *)
Definition str (x : pyvalue) : string :=
  match x with
  | PyNone => "None"
  | PyBool true => "True"
  | PyBool false => "False"
  | PyInt z => pretty z
  | PyStr s => s
  | PyOther text => text
  end.

(** The exceptions the handler can raise. *)
Inductive exn :=
  | IndexError
  | TypeError
  | KeyError
  | ValueError
  | StorageException
  | APIError.

Inductive outcome (A : Type) :=
  | Ret (a : A)
  | Raise (e : exn).
Arguments Ret {A} a.
Arguments Raise {A} e.

(** [range(x)] for any value [x]: an [int] (a [bool] is one, [True] being
    1) gives its indices, anything else is a [TypeError]. *)
Definition py_range (x : pyvalue) : outcome (list Z) :=
  match x with
  | PyInt z => Ret (range z)
  | PyBool b => Ret (range (if b then 1 else 0))
  | PyNone | PyStr _ | PyOther _ => Raise TypeError
  end.

(** ** The collaborators *)

(** [datetime.utcnow()], in the two renderings the program uses. *)
Record datetime := {
  strftime_YmdHMS : string;
  isoformat : string
}.

(** The dictionary [json.loads] yields for an info payload, read through
    [meta["total_chunks"]] (any JSON value; [null] reads as [None]) and
    [meta.get("image_id", ...)] ([None] here: the key is absent, and the
    default is taken; a key that is present gives its value, whatever it
    is). *)
Record Meta := {
  total_chunks : pyvalue;
  meta_image_id : option pyvalue
}.

(** The row handed to [supabase.table("gxp_raw_observations").insert]. *)
Record Row := {
  gxp_id : string;
  row_image_id : pyvalue;
  image_url : string;
  chunk_status : string;
  submitted_at : string
}.

(** The environment variables read at import time and the behaviour of the
    libraries the handler calls into. *)
Record Env := {
  INFO_TOPIC : string;
  CHUNK_TOPIC : string;
  SUPABASE_URL : string;
  SUPABASE_BUCKET : string;
  (** [json.loads(msg.payload.decode())], then [meta["total_chunks"]]:
      raises on bytes that are not a JSON object with that key. *)
  json_loads : bytes → outcome Meta;
  (** does [storage.from_(bucket).upload(filename, body, ...)] return
      ([true]) or raise? *)
  storage_upload : string → bytes → bool;
  (** [table(...).insert(row).execute()]: the printed form of its result,
      [None] when it raises. *)
  table_insert : Row → option string
}.

Record MQTTMessage := {
  topic : string;
  payload : bytes
}.

(** What the program does to the outside world, in order. *)
Inductive effect :=
  | Print (line : string)
  | StorageUpload (bucket filename : string) (body : bytes) (content_type : string)
  | TableInsert (table : string) (row : Row).

(** ** Memory buffers *)

(** The module-level variables [expected_chunks], [received_data] and
    [image_id]. *)
Record Globals := {
  expected_chunks : pyvalue;
  received_data : gmap Z bytes;
  image_id : pyvalue
}.

Definition initial : Globals :=
  {| expected_chunks := PyNone; received_data := ∅; image_id := PyNone |}.

Definition set_expected_chunks (v : pyvalue) (g : Globals) : Globals :=
  {| expected_chunks := v; received_data := received_data g; image_id := image_id g |}.

Definition set_image_id (v : pyvalue) (g : Globals) : Globals :=
  {| expected_chunks := expected_chunks g; received_data := received_data g; image_id := v |}.

Definition set_received_data (m : gmap Z bytes) (g : Globals) : Globals :=
  {| expected_chunks := expected_chunks g; received_data := m; image_id := image_id g |}.

(** ** The monad of the handler: global state, effect trace, exceptions *)

Definition M (A : Type) : Type := Globals → outcome A * Globals * list effect.

#[global] Instance M_ret : MRet M := λ A a g, (Ret a, g, []).

#[global] Instance M_bind : MBind M := λ A B f m g,
  match m g with
  | (Ret a, g', t) =>
      match f a g' with
      | (r, g'', t') => (r, g'', t ++ t')
      end
  | (Raise e, g', t) => (Raise e, g', t)
  end.

Definition raise {A} (e : exn) : M A := λ g, (Raise e, g, []).
Definition emit (e : effect) : M unit := λ g, (Ret tt, g, [e]).
Definition print (line : string) : M unit := emit (Print line).
Definition get : M Globals := λ g, (Ret g, g, []).
Definition modify (f : Globals → Globals) : M unit := λ g, (Ret tt, f g, []).

(** Lift a library call that returns or raises. *)
Definition lift {A} (o : outcome A) : M A := λ g, (o, g, []).

(** ** [upload_image_and_insert] *)

(** The reassembly loop [for i in range(expected_chunks)]: the bytes
    written so far are threaded through; [inl i] is the [return] taken at
    the first [i not in received_data]. *)
Fixpoint stitch (received : gmap Z bytes) (indices : list Z)
    (image_bytes : bytes) : Z + bytes :=
  match indices with
  | [] => inr image_bytes
  | i :: rest =>
      match received !! i with
      | None => inl i
      | Some chunk => stitch received rest (image_bytes ++ chunk)
      end
  end.

Definition upload_image_and_insert (env : Env) (utcnow : datetime) : M unit :=
  g ← get;
  indices ← lift (py_range (expected_chunks g));
  match stitch (received_data g) indices [] with
  | inl i => print ("Missing chunk " +:+ pretty i)
  | inr image_bytes =>
      print ("[+] All " +:+ str (expected_chunks g) +:+ " chunks stitched");;
      let filename := str (image_id g) +:+ ".jpg" in
      emit (StorageUpload (SUPABASE_BUCKET env) filename image_bytes "image/jpeg");;
      (if storage_upload env filename image_bytes then mret tt
       else raise StorageException);;
      let public_url :=
        SUPABASE_URL env +:+ "/storage/v1/object/public/" +:+
        SUPABASE_BUCKET env +:+ "/" +:+ filename in
      let row := {| gxp_id := "dev-default";
                    row_image_id := image_id g;
                    image_url := public_url;
                    chunk_status := "complete";
                    submitted_at := isoformat utcnow |} in
      emit (TableInsert "gxp_raw_observations" row);;
      match table_insert env row with
      | None => raise APIError
      | Some result =>
          print ("[✔] Uploaded and inserted record: " +:+ result)
      end
  end.

(** ** [on_message] *)

(** [msg.payload[i]]. *)
Definition index (p : bytes) (i : nat) : M Z :=
  match p !! i with
  | Some b => mret (byte_to_int b)
  | None => raise IndexError
  end.

Definition on_message (env : Env) (utcnow : datetime) (msg : MQTTMessage) : M unit :=
  if decide (topic msg = INFO_TOPIC env) then
    meta ← lift (json_loads env (payload msg));
    modify (set_expected_chunks (total_chunks meta));;
    modify (set_image_id
      (default (PyStr ("img-" +:+ strftime_YmdHMS utcnow)) (meta_image_id meta)));;
    modify (set_received_data ∅);;
    g ← get;
    print ("Expecting " +:+ str (expected_chunks g) +:+ " chunks for " +:+
           str (image_id g))
  else if decide (topic msg = CHUNK_TOPIC env ∧ length (payload msg) = 0%nat) then
    g ← get;
    match expected_chunks g with
    | PyNone => print "⚠ No metadata received before end marker"
    | _ =>
        print "End marker received, stitching image";;
        upload_image_and_insert env utcnow;;
        modify (set_expected_chunks PyNone);;
        modify (set_received_data ∅)
    end
  else if decide (topic msg = CHUNK_TOPIC env) then
    hi ← index (payload msg) 0;
    lo ← index (payload msg) 1;
    let chunk_num := Z.lor (Z.shiftl hi 8) lo in
    let data := drop 2 (payload msg) in
    g ← get;
    if decide (chunk_num ∈ dom (received_data g)) then
      print ("Duplicate chunk " +:+ pretty chunk_num +:+ ", skipping.")
    else
      modify (set_received_data (<[chunk_num := data]> (received_data g)));;
      print ("Chunk " +:+ pretty chunk_num +:+ " received (" +:+
             pretty (length data) +:+ " bytes)")
  else mret tt.

(** The callback dispatch of [client.loop_forever()]: messages are handled
    one at a time, in arrival order; an exception leaves the loop. *)
Fixpoint loop_forever (env : Env) (arrivals : list (datetime * MQTTMessage)) : M unit :=
  match arrivals with
  | [] => mret tt
  | (utcnow, msg) :: rest => on_message env utcnow msg;; loop_forever env rest
  end.

(** ** Reading a trace *)

Definition uploads (t : list effect) : list (string * string * bytes * string) :=
  omap (λ e, match e with
             | StorageUpload b f body ct => Some (b, f, body, ct)
             | _ => None
             end) t.

Definition inserts (t : list effect) : list (string * Row) :=
  omap (λ e, match e with
             | TableInsert tb row => Some (tb, row)
             | _ => None
             end) t.

(** The index a chunk message carries in its first two bytes, as
    [on_message] decodes it: [(payload[0] << 8) | payload[1]]. *)
Definition chunk_index (hi lo : byte) : Z :=
  Z.lor (Z.shiftl (byte_to_int hi) 8) (byte_to_int lo).

(** The globals after a metadata message has been handled. *)
Definition receiving (meta : Meta) (utcnow : datetime) : Globals :=
  {| expected_chunks := total_chunks meta;
     received_data := ∅;
     image_id := default (PyStr ("img-" +:+ strftime_YmdHMS utcnow)) (meta_image_id meta) |}.

(** The globals after an end marker has been handled to its end. *)
Definition finished (g : Globals) : Globals :=
  {| expected_chunks := PyNone; received_data := ∅; image_id := image_id g |}.

(** The object name [upload_image_and_insert] builds: [f"{image_id}.jpg"]. *)
Definition filename_of (g : Globals) : string := str (image_id g) +:+ ".jpg".

(** The row [upload_image_and_insert] inserts after the upload. *)
Definition row_of (env : Env) (utcnow : datetime) (g : Globals) : Row :=
  {| gxp_id := "dev-default";
     row_image_id := image_id g;
     image_url := SUPABASE_URL env +:+ "/storage/v1/object/public/" +:+
                  SUPABASE_BUCKET env +:+ "/" +:+ filename_of g;
     chunk_status := "complete";
     submitted_at := isoformat utcnow |}.

(** Index [i] is among the keys of the buffer. *)
Definition present (g : Globals) (i : Z) : Prop := i ∈ dom (received_data g).

(** Some index of [range(n)] is not in the buffer. *)
Definition incomplete (g : Globals) (n : Z) : Prop :=
  ∃ k, 0 ≤ k < n ∧ ¬ present g k.

(** [i] is the smallest index of [range(n)] that is not in the buffer. *)
Definition first_missing (g : Globals) (n i : Z) : Prop :=
  0 ≤ i < n ∧ ¬ present g i ∧ ∀ j, 0 ≤ j < i → present g j.

(** A message the third branch of [on_message] handles to its end: on the
    chunk topic (and not on the info topic, which is tested first), with the
    two index bytes in place. *)
Definition chunk_message (env : Env) (msg : MQTTMessage) : Prop :=
  topic msg ≠ INFO_TOPIC env ∧ topic msg = CHUNK_TOPIC env ∧
  ∃ hi lo data, payload msg = hi :: lo :: data.

(** [msg] is a chunk message with index [i] and chunk bytes [data]. *)
Definition carries (env : Env) (msg : MQTTMessage) (i : Z) (data : bytes) : Prop :=
  topic msg ≠ INFO_TOPIC env ∧ topic msg = CHUNK_TOPIC env ∧
  ∃ hi lo, payload msg = hi :: lo :: data ∧ chunk_index hi lo = i.

(** The end marker: a zero-length payload on the chunk topic. *)
Definition end_marker (env : Env) (msg : MQTTMessage) : Prop :=
  topic msg ≠ INFO_TOPIC env ∧ topic msg = CHUNK_TOPIC env ∧ payload msg = [].

(** A metadata message that [json.loads] reads as [meta]. *)
Definition metadata (env : Env) (msg : MQTTMessage) (meta : Meta) : Prop :=
  topic msg = INFO_TOPIC env ∧ json_loads env (payload msg) = Ret meta.

(** Every key of the buffer is a 16-bit index. *)
Definition keys_16bit (g : Globals) : Prop :=
  ∀ i, present g i → 0 ≤ i < 65536.

(** What the chunk branch does to the buffer: a new index is recorded with
    its bytes, an index already present is skipped. *)
Definition buffer_put (received : gmap Z bytes) (chunk : Z * bytes) : gmap Z bytes :=
  if decide (chunk.1 ∈ dom received) then received else <[chunk.1 := chunk.2]> received.

(** The lines the chunk branch prints. *)
Definition chunk_log (e : effect) : Prop :=
  ∃ s, e = Print ("Chunk " +:+ s) ∨ e = Print ("Duplicate chunk " +:+ s).

(** The line [upload_image_and_insert] prints when it gives up. *)
Definition missing_report (e : effect) : Prop :=
  ∃ i : Z, e = Print ("Missing chunk " +:+ pretty i).

#[global] Instance end_marker_dec env msg : Decision (end_marker env msg).
Proof. unfold end_marker. apply _. Defined.

(** How many of the arrivals are end markers. *)
Definition end_markers (env : Env) (arrivals : list (datetime * MQTTMessage)) : nat :=
  length (filter (λ a, end_marker env a.2) arrivals).

(** Two globals that differ at most in what the buffer holds outside
    [range(n)]. *)
Definition same_transfer (n : Z) (g1 g2 : Globals) : Prop :=
  expected_chunks g1 = PyInt n ∧ expected_chunks g2 = PyInt n ∧
  image_id g1 = image_id g2 ∧
  ∀ i, 0 ≤ i < n → received_data g1 !! i = received_data g2 !! i.

(** A value [range] accepts, or [None]: what [expected_chunks] has to be
    for an end marker to be handled without a [TypeError]. *)
Definition count_or_none (x : pyvalue) : Prop :=
  match x with
  | PyNone | PyInt _ | PyBool _ => True
  | PyStr _ | PyOther _ => False
  end.


(** ** A test bench

    The default topics and bucket of [app.py], a clock, and a [json.loads]
    that knows the info payloads used below. *)

Definition dquote : string := String (Ascii.ascii_of_byte x22) EmptyString.

(** The JSON text [{"total_chunks": n, "image_id": "id"}]. *)
Definition info_json (n : Z) (id : string) : bytes :=
  String.list_byte_of_string
    ("{" +:+ dquote +:+ "total_chunks" +:+ dquote +:+ ": " +:+ pretty n +:+ ", " +:+
     dquote +:+ "image_id" +:+ dquote +:+ ": " +:+ dquote +:+ id +:+ dquote +:+ "}").

Definition bench_json_loads (p : bytes) : outcome Meta :=
  match list_find (λ n, p = info_json n "img-1") [0; 1; 2; 3] with
  | Some (_, n) =>
      Ret {| total_chunks := PyInt n; meta_image_id := Some (PyStr "img-1") |}
  | None => Raise ValueError
  end.

Definition bench : Env :=
  {| INFO_TOPIC := "esp32cam/image/info";
     CHUNK_TOPIC := "esp32cam/image/chunk";
     SUPABASE_URL := "https://gxp.supabase.co";
     SUPABASE_BUCKET := "petri-images";
     json_loads := bench_json_loads;
     storage_upload := λ _ _, true;
     table_insert := λ _, Some "ok" |}.

Definition noon : datetime :=
  {| strftime_YmdHMS := "20250101120000"; isoformat := "2025-01-01T12:00:00" |}.

Definition info_msg (n : Z) : MQTTMessage :=
  {| topic := "esp32cam/image/info"; payload := info_json n "img-1" |}.

Definition chunk_msg (p : bytes) : MQTTMessage :=
  {| topic := "esp32cam/image/chunk"; payload := p |}.

(** Three one-byte chunks, [a], [b] and [c], and their messages as they
    arrive in the order 0, 2, 1. *)
Definition abc (i : Z) : bytes :=
  if decide (i = 0) then [x61] else if decide (i = 1) then [x62] else [x63].

Definition abc_arrivals : list (datetime * MQTTMessage) :=
  [(noon, chunk_msg [x00; x00; x61]);
   (noon, chunk_msg [x00; x02; x63]);
   (noon, chunk_msg [x00; x01; x62])].

(** Globals in the middle of a transfer of [n] chunks for [img-1]. *)
Definition mid_transfer (n : Z) (received : gmap Z bytes) : Globals :=
  {| expected_chunks := PyInt n; received_data := received;
     image_id := PyStr "img-1" |}.

(** The bench with a storage backend that refuses every upload. *)
Definition bench_storage_down : Env :=
  {| INFO_TOPIC := INFO_TOPIC bench;
     CHUNK_TOPIC := CHUNK_TOPIC bench;
     SUPABASE_URL := SUPABASE_URL bench;
     SUPABASE_BUCKET := SUPABASE_BUCKET bench;
     json_loads := json_loads bench;
     storage_upload := λ _ _, false;
     table_insert := table_insert bench |}.

(** The bench with a table that refuses every insert. *)
Definition bench_table_down : Env :=
  {| INFO_TOPIC := INFO_TOPIC bench;
     CHUNK_TOPIC := CHUNK_TOPIC bench;
     SUPABASE_URL := SUPABASE_URL bench;
     SUPABASE_BUCKET := SUPABASE_BUCKET bench;
     json_loads := json_loads bench;
     storage_upload := storage_upload bench;
     table_insert := λ _, None |}.

(** The JSON texts [{"total_chunks": 2}], [{"total_chunks": null}] and
    [{"total_chunks": 2.5}], with no [image_id] key, and a [json.loads] that
    knows them. *)
Definition anonymous_json (total : string) : bytes :=
  String.list_byte_of_string
    ("{" +:+ dquote +:+ "total_chunks" +:+ dquote +:+ ": " +:+ total +:+ "}").

Definition anonymous_json_loads (p : bytes) : outcome Meta :=
  if decide (p = anonymous_json "2") then
    Ret {| total_chunks := PyInt 2; meta_image_id := None |}
  else if decide (p = anonymous_json "null") then
    Ret {| total_chunks := PyNone; meta_image_id := None |}
  else if decide (p = anonymous_json "2.5") then
    Ret {| total_chunks := PyOther "2.5"; meta_image_id := None |}
  else Raise ValueError.

Definition bench_anonymous : Env :=
  {| INFO_TOPIC := INFO_TOPIC bench;
     CHUNK_TOPIC := CHUNK_TOPIC bench;
     SUPABASE_URL := SUPABASE_URL bench;
     SUPABASE_BUCKET := SUPABASE_BUCKET bench;
     json_loads := anonymous_json_loads;
     storage_upload := storage_upload bench;
     table_insert := table_insert bench |}.

Definition anonymous_msg (total : string) : MQTTMessage :=
  {| topic := "esp32cam/image/info"; payload := anonymous_json total |}.

(** The JSON text [{"total_chunks": 1, "image_id": null}] and a bench whose
    [json.loads] knows it. *)
Definition null_id_json : bytes :=
  String.list_byte_of_string
    ("{" +:+ dquote +:+ "total_chunks" +:+ dquote +:+ ": 1, " +:+
     dquote +:+ "image_id" +:+ dquote +:+ ": null}").

Definition bench_null_id : Env :=
  {| INFO_TOPIC := INFO_TOPIC bench;
     CHUNK_TOPIC := CHUNK_TOPIC bench;
     SUPABASE_URL := SUPABASE_URL bench;
     SUPABASE_BUCKET := SUPABASE_BUCKET bench;
     json_loads := λ p,
       if decide (p = null_id_json) then
         Ret {| total_chunks := PyInt 1; meta_image_id := Some PyNone |}
       else Raise ValueError;
     storage_upload := storage_upload bench;
     table_insert := table_insert bench |}.

(** The bench misconfigured: both topics set to the same name. *)
Definition bench_one_topic : Env :=
  {| INFO_TOPIC := "esp32cam/image";
     CHUNK_TOPIC := "esp32cam/image";
     SUPABASE_URL := SUPABASE_URL bench;
     SUPABASE_BUCKET := SUPABASE_BUCKET bench;
     json_loads := json_loads bench;
     storage_upload := storage_upload bench;
     table_insert := table_insert bench |}.

(** ** Unfolding the monad *)

Ltac unfold_M :=
  unfold mbind, mret, M_bind, M_ret, get, modify, print, emit, raise, lift, index in *.

(** ** The branches of [on_message], one equation each *)

Section handler.
Context (env : Env) (utcnow : datetime) (msg : MQTTMessage).

Lemma on_message_info g meta :
  topic msg = INFO_TOPIC env →
  json_loads env (payload msg) = Ret meta →
  on_message env utcnow msg g =
    (Ret tt, receiving meta utcnow,
     [Print ("Expecting " +:+ str (total_chunks meta) +:+ " chunks for " +:+
             str (default (PyStr ("img-" +:+ strftime_YmdHMS utcnow)) (meta_image_id meta)))]).
Proof.
  intros Ht Hj. unfold on_message. rewrite decide_True by done.
  unfold_M. by rewrite Hj.
Qed.

Lemma on_message_info_raise g e :
  topic msg = INFO_TOPIC env →
  json_loads env (payload msg) = Raise e →
  on_message env utcnow msg g = (Raise e, g, []).
Proof.
  intros Ht Hj. unfold on_message. rewrite decide_True by done.
  unfold_M. by rewrite Hj.
Qed.

Lemma on_message_end_no_metadata g :
  topic msg ≠ INFO_TOPIC env →
  topic msg = CHUNK_TOPIC env →
  payload msg = [] →
  expected_chunks g = PyNone →
  on_message env utcnow msg g =
    (Ret tt, g, [Print "⚠ No metadata received before end marker"]).
Proof.
  intros Hi Hc Hp He. unfold on_message.
  rewrite decide_False by done. rewrite decide_True by (by rewrite Hp).
  unfold_M. by rewrite He.
Qed.

Lemma on_message_end_any g :
  topic msg ≠ INFO_TOPIC env →
  topic msg = CHUNK_TOPIC env →
  payload msg = [] →
  expected_chunks g ≠ PyNone →
  on_message env utcnow msg g =
    match upload_image_and_insert env utcnow g with
    | (Ret _, g', t) =>
        (Ret tt, finished g', Print "End marker received, stitching image" :: t)
    | (Raise e, g', t) =>
        (Raise e, g', Print "End marker received, stitching image" :: t)
    end.
Proof.
  intros Hi Hc Hp He. unfold on_message.
  rewrite decide_False by done. rewrite decide_True by (by rewrite Hp).
  unfold_M.
  destruct (upload_image_and_insert env utcnow g) as [[[[]|e] g'] t] eqn:Hup;
    destruct (expected_chunks g); try done; rewrite Hup; simpl;
    by rewrite ?app_nil_r.
Qed.

Lemma on_message_end g n :
  topic msg ≠ INFO_TOPIC env →
  topic msg = CHUNK_TOPIC env →
  payload msg = [] →
  expected_chunks g = PyInt n →
  on_message env utcnow msg g =
    match upload_image_and_insert env utcnow g with
    | (Ret _, g', t) =>
        (Ret tt, finished g', Print "End marker received, stitching image" :: t)
    | (Raise e, g', t) =>
        (Raise e, g', Print "End marker received, stitching image" :: t)
    end.
Proof.
  intros Hi Hc Hp He. apply on_message_end_any; [done..|]. by rewrite He.
Qed.

Lemma on_message_chunk_short g b :
  topic msg ≠ INFO_TOPIC env →
  topic msg = CHUNK_TOPIC env →
  payload msg = [b] →
  on_message env utcnow msg g = (Raise IndexError, g, []).
Proof.
  intros Hi Hc Hp. unfold on_message.
  rewrite decide_False by done.
  rewrite decide_False by (rewrite Hp; simpl; intros [_ ?]; lia).
  rewrite decide_True by done. rewrite Hp. by unfold_M.
Qed.

Lemma on_message_chunk_duplicate g hi lo data :
  topic msg ≠ INFO_TOPIC env →
  topic msg = CHUNK_TOPIC env →
  payload msg = hi :: lo :: data →
  chunk_index hi lo ∈ dom (received_data g) →
  on_message env utcnow msg g =
    (Ret tt, g,
     [Print ("Duplicate chunk " +:+ pretty (chunk_index hi lo) +:+ ", skipping.")]).
Proof.
  intros Hi Hc Hp Hin. unfold on_message.
  rewrite decide_False by done.
  rewrite decide_False by (rewrite Hp; simpl; intros [_ ?]; lia).
  rewrite decide_True by done. rewrite Hp. unfold_M. simpl.
  fold (chunk_index hi lo). by rewrite decide_True by done.
Qed.

Lemma on_message_chunk_fresh g hi lo data :
  topic msg ≠ INFO_TOPIC env →
  topic msg = CHUNK_TOPIC env →
  payload msg = hi :: lo :: data →
  chunk_index hi lo ∉ dom (received_data g) →
  on_message env utcnow msg g =
    (Ret tt,
     set_received_data (<[chunk_index hi lo := data]> (received_data g)) g,
     [Print ("Chunk " +:+ pretty (chunk_index hi lo) +:+ " received (" +:+
             pretty (length data) +:+ " bytes)")]).
Proof.
  intros Hi Hc Hp Hin. unfold on_message.
  rewrite decide_False by done.
  rewrite decide_False by (rewrite Hp; simpl; intros [_ ?]; lia).
  rewrite decide_True by done. rewrite Hp. unfold_M. simpl.
  fold (chunk_index hi lo). by rewrite decide_False by done.
Qed.

Lemma on_message_other_topic g :
  topic msg ≠ INFO_TOPIC env →
  topic msg ≠ CHUNK_TOPIC env →
  on_message env utcnow msg g = (Ret tt, g, []).
Proof.
  intros Hi Hc. unfold on_message.
  rewrite decide_False by done.
  rewrite decide_False by (by intros [? _]).
  by rewrite decide_False by done.
Qed.
End handler.

(** ** [range] and the reassembly loop *)

Lemma elem_of_range n i : i ∈ range n ↔ 0 ≤ i < n.
Proof.
  unfold range. rewrite list_elem_of_fmap. split.
  - intros (k & -> & Hk). apply elem_of_seq in Hk. lia.
  - intros Hi. exists (Z.to_nat i). split; [lia|]. apply elem_of_seq. lia.
Qed.

Lemma range_nonpos n : n ≤ 0 → range n = [].
Proof. intros Hn. unfold range. by replace (Z.to_nat n) with 0%nat by lia. Qed.

Lemma NoDup_range n : NoDup (range n).
Proof.
  unfold range. apply NoDup_fmap_2; [|apply NoDup_seq].
  intros x y. lia.
Qed.

Lemma length_range n : length (range n) = Z.to_nat n.
Proof. unfold range. by rewrite length_fmap, length_seq. Qed.

(** The loop over [a, a+1, ..., a+len-1] stops at the smallest index
    that is not a key, and at no other. *)
Lemma stitch_seq_inl (received : gmap Z bytes) len : ∀ a acc i,
  stitch received (Z.of_nat <$> seq a len) acc = inl i →
  Z.of_nat a ≤ i < Z.of_nat a + Z.of_nat len ∧
  received !! i = None ∧
  ∀ j, Z.of_nat a ≤ j < i → is_Some (received !! j).
Proof.
  induction len as [|len IH]; intros a acc i; simpl; [done|].
  destruct (received !! Z.of_nat a) as [chunk|] eqn:Ha.
  - intros Hs. apply IH in Hs as (Hi & Hn & Hbefore).
    split; [lia|]. split; [done|]. intros j Hj.
    destruct (decide (j = Z.of_nat a)) as [->|]; [by eexists|].
    apply Hbefore. lia.
  - intros [= <-]. split; [lia|]. split; [done|]. intros j Hj. lia.
Qed.

(** The loop runs to its end exactly when every index is a key, and then
    it has written the chunks in index order. *)
Lemma stitch_all (received : gmap Z bytes) (data : Z → bytes) indices : ∀ acc,
  (∀ i, i ∈ indices → received !! i = Some (data i)) →
  stitch received indices acc = inr (acc ++ mjoin (data <$> indices)).
Proof.
  induction indices as [|i rest IH]; intros acc Hall; simpl.
  - by rewrite app_nil_r.
  - rewrite (Hall i) by set_solver.
    rewrite IH by (intros; apply Hall; set_solver).
    by rewrite <-(assoc_L (++)).
Qed.

Lemma stitch_inr (received : gmap Z bytes) indices : ∀ acc body,
  stitch received indices acc = inr body →
  ∀ i, i ∈ indices → is_Some (received !! i).
Proof.
  induction indices as [|k rest IH]; intros acc body Hs i Hi; simpl in *.
  - set_solver.
  - destruct (received !! k) as [chunk|] eqn:Hk; [|done].
    apply elem_of_cons in Hi as [->|Hi]; [by eexists|by eapply IH].
Qed.

Lemma stitch_range_incomplete g n :
  incomplete g n →
  ∃ i, first_missing g n i ∧ stitch (received_data g) (range n) [] = inl i.
Proof.
  intros (k & Hk & Habs).
  destruct (stitch (received_data g) (range n) []) as [i|body] eqn:Hs.
  - exists i. split; [|done].
    apply stitch_seq_inl in Hs as (Hi & Hn & Hbefore).
    unfold first_missing, present. split; [lia|]. split.
    + by rewrite not_elem_of_dom.
    + intros j Hj. apply elem_of_dom, Hbefore. lia.
  - exfalso. apply Habs. unfold present. apply elem_of_dom.
    eapply stitch_inr; [done|]. by apply elem_of_range.
Qed.

(** ** [upload_image_and_insert], one equation per way out *)

Section upload.
Context (env : Env) (utcnow : datetime).

Lemma upload_image_and_insert_missing g n i :
  expected_chunks g = PyInt n →
  stitch (received_data g) (range n) [] = inl i →
  upload_image_and_insert env utcnow g =
    (Ret tt, g, [Print ("Missing chunk " +:+ pretty i)]).
Proof.
  intros He Hs. unfold upload_image_and_insert. unfold_M.
  rewrite He. cbn [py_range]. by rewrite Hs.
Qed.

Lemma upload_image_and_insert_stitched g n body :
  expected_chunks g = PyInt n →
  stitch (received_data g) (range n) [] = inr body →
  upload_image_and_insert env utcnow g =
    let stitched := Print ("[+] All " +:+ pretty n +:+ " chunks stitched") in
    let upload :=
      StorageUpload (SUPABASE_BUCKET env) (filename_of g) body "image/jpeg" in
    let insert := TableInsert "gxp_raw_observations" (row_of env utcnow g) in
    if storage_upload env (filename_of g) body then
      match table_insert env (row_of env utcnow g) with
      | Some result =>
          (Ret tt, g,
           [stitched; upload; insert;
            Print ("[✔] Uploaded and inserted record: " +:+ result)])
      | None => (Raise APIError, g, [stitched; upload; insert])
      end
    else (Raise StorageException, g, [stitched; upload]).
Proof.
  intros He Hs. unfold upload_image_and_insert. unfold_M.
  rewrite He. cbn [py_range]. rewrite Hs.
  fold (filename_of g). fold (row_of env utcnow g). simpl.
  destruct (storage_upload env (filename_of g) body); [|done].
  by destruct (table_insert env (row_of env utcnow g)).
Qed.

Lemma upload_image_and_insert_type_error g e :
  py_range (expected_chunks g) = Raise e →
  upload_image_and_insert env utcnow g = (Raise e, g, []).
Proof.
  intros He. unfold upload_image_and_insert. unfold_M. by rewrite He.
Qed.
End upload.

(** [upload_image_and_insert] reads the globals and never assigns them. *)
Lemma upload_image_and_insert_globals env utcnow g :
  (upload_image_and_insert env utcnow g).1.2 = g.
Proof.
  unfold upload_image_and_insert. unfold_M.
  destruct (py_range (expected_chunks g)) as [indices|e]; [|done].
  destruct (stitch (received_data g) indices []) as [i|body]; [done|]. simpl.
  destruct (storage_upload env _ body); [|done].
  by destruct (table_insert env _).
Qed.

(** ** The end marker on an incomplete buffer *)

(** C2 (as the code has it): when the end marker arrives while some index
    of [0, N) is not in the buffer, the reassembly stops at the smallest
    absent index and reports that one index, and no other; the handler
    returns, and the expected count and the buffer are reset. *)
Theorem end_marker_reports_first_missing env utcnow msg g n :
  end_marker env msg →
  expected_chunks g = PyInt n →
  incomplete g n →
  ∃ i, first_missing g n i ∧
    on_message env utcnow msg g =
      (Ret tt, finished g,
       [Print "End marker received, stitching image";
        Print ("Missing chunk " +:+ pretty i)]).
Proof.
  intros (Hi & Hc & Hp) He Hinc.
  destruct (stitch_range_incomplete g n Hinc) as (i & Hfirst & Hs).
  exists i. split; [done|].
  rewrite (on_message_end env utcnow msg g n) by done.
  by rewrite (upload_image_and_insert_missing env utcnow g n i).
Qed.

Lemma end_marker_reports_first_missing_witness :
  ∃ i, first_missing (mid_transfer 2 ∅) 2 i ∧
    on_message bench noon (chunk_msg []) (mid_transfer 2 ∅) =
      (Ret tt, finished (mid_transfer 2 ∅),
       [Print "End marker received, stitching image";
        Print ("Missing chunk " +:+ pretty i)]).
Proof.
  apply (end_marker_reports_first_missing bench noon (chunk_msg []) (mid_transfer 2 ∅) 2).
  - repeat split. discriminate.
  - reflexivity.
  - exists 1. split; [lia|]. unfold present. simpl. rewrite dom_empty_L. apply not_elem_of_empty.
Defined.

(** C2 fails as stated: with two chunks expected and none received, both
    index 0 and index 1 are absent, and the report names index 0 only. *)
Lemma end_marker_reports_one_index_only :
  ¬ present (mid_transfer 2 ∅) 0 ∧ ¬ present (mid_transfer 2 ∅) 1 ∧
  loop_forever bench [(noon, info_msg 2); (noon, chunk_msg [])] initial =
    (Ret tt, finished (mid_transfer 2 ∅),
     [Print "Expecting 2 chunks for img-1";
      Print "End marker received, stitching image";
      Print "Missing chunk 0"]).
Proof.
  split; [|split].
  - unfold present. simpl. rewrite dom_empty_L. apply not_elem_of_empty.
  - unfold present. simpl. rewrite dom_empty_L. apply not_elem_of_empty.
  - vm_compute. reflexivity.
Qed.

(** C3: when some index of [0, N) is absent at finalization, neither the
    storage upload nor the table insert is invoked, by
    [upload_image_and_insert] or by the end-marker branch that calls it. *)
Theorem incomplete_transfer_never_stored env utcnow msg g n :
  end_marker env msg →
  expected_chunks g = PyInt n →
  incomplete g n →
  uploads (upload_image_and_insert env utcnow g).2 = [] ∧
  inserts (upload_image_and_insert env utcnow g).2 = [] ∧
  uploads (on_message env utcnow msg g).2 = [] ∧
  inserts (on_message env utcnow msg g).2 = [].
Proof.
  intros (Hi & Hc & Hp) He Hinc.
  destruct (stitch_range_incomplete g n Hinc) as (i & _ & Hs).
  rewrite (on_message_end env utcnow msg g n) by done.
  by rewrite (upload_image_and_insert_missing env utcnow g n i).
Qed.

Lemma incomplete_transfer_never_stored_witness :
  uploads (upload_image_and_insert bench noon (mid_transfer 3 {[0 := [x61]; 2 := [x63]]})).2 = [] ∧
  inserts (upload_image_and_insert bench noon (mid_transfer 3 {[0 := [x61]; 2 := [x63]]})).2 = [] ∧
  uploads (on_message bench noon (chunk_msg []) (mid_transfer 3 {[0 := [x61]; 2 := [x63]]})).2 = [] ∧
  inserts (on_message bench noon (chunk_msg []) (mid_transfer 3 {[0 := [x61]; 2 := [x63]]})).2 = [].
Proof.
  apply (incomplete_transfer_never_stored bench noon (chunk_msg []) _ 3).
  - repeat split. discriminate.
  - reflexivity.
  - exists 1. split; [lia|]. unfold present. vm_compute. intros H. inversion H.
Defined.

(** ** Chunk messages *)

(** C4 (as the code has it): a chunk message whose payload is a single
    byte leaves the three globals as they were and produces no effect at
    all: nothing is printed (there is no malformed-chunk report), nothing
    is uploaded or inserted. *)
Theorem one_byte_chunk_leaves_globals env utcnow msg g b :
  topic msg ≠ INFO_TOPIC env →
  topic msg = CHUNK_TOPIC env →
  payload msg = [b] →
  (on_message env utcnow msg g).1.2 = g ∧
  (on_message env utcnow msg g).2 = [].
Proof.
  intros Hi Hc Hp.
  by rewrite (on_message_chunk_short env utcnow msg g b).
Qed.

Lemma one_byte_chunk_leaves_globals_witness :
  (on_message bench noon (chunk_msg [x07]) (mid_transfer 3 {[0 := [x61]]})).1.2 =
    mid_transfer 3 {[0 := [x61]]} ∧
  (on_message bench noon (chunk_msg [x07]) (mid_transfer 3 {[0 := [x61]]})).2 = [].
Proof.
  apply (one_byte_chunk_leaves_globals bench noon (chunk_msg [x07]) _ x07).
  - discriminate.
  - reflexivity.
  - reflexivity.
Defined.

(** C4 fails as stated: on a one-byte payload the handler does not return;
    reading [payload[1]] raises [IndexError] out of [on_message], and
    nothing has been reported before that. *)
Lemma one_byte_chunk_raises :
  on_message bench noon (chunk_msg [x07]) (mid_transfer 3 {[0 := [x61]]}) =
    (Raise IndexError, mid_transfer 3 {[0 := [x61]]}, []).
Proof. vm_compute. reflexivity. Qed.

(** C5: a chunk message whose index is already a key of the buffer is
    reported as a duplicate and changes nothing: the handler returns, the
    globals are the same, and the bytes stored under that index are still
    those of the first arrival, whatever the second one carries. *)
Theorem duplicate_chunk_rejected env utcnow msg g i data :
  carries env msg i data →
  present g i →
  on_message env utcnow msg g =
    (Ret tt, g, [Print ("Duplicate chunk " +:+ pretty i +:+ ", skipping.")]) ∧
  received_data (on_message env utcnow msg g).1.2 !! i = received_data g !! i.
Proof.
  intros (Hi & Hc & hi & lo & Hp & <-) Hin.
  by rewrite (on_message_chunk_duplicate env utcnow msg g hi lo data).
Qed.

Lemma duplicate_chunk_rejected_witness :
  on_message bench noon (chunk_msg [x00; x01; x7a; x7a]) (mid_transfer 3 {[1 := [x62]]}) =
    (Ret tt, mid_transfer 3 {[1 := [x62]]},
     [Print ("Duplicate chunk " +:+ pretty 1 +:+ ", skipping.")]) ∧
  received_data
    (on_message bench noon (chunk_msg [x00; x01; x7a; x7a])
       (mid_transfer 3 {[1 := [x62]]})).1.2 !! 1 =
  received_data (mid_transfer 3 {[1 := [x62]]}) !! 1.
Proof.
  apply (duplicate_chunk_rejected bench noon (chunk_msg [x00; x01; x7a; x7a]) _ 1 [x7a; x7a]).
  - split; [discriminate|]. split; [reflexivity|].
    exists x00, x01. split; reflexivity.
  - unfold present. simpl. apply elem_of_dom. exists [x62]. reflexivity.
Defined.

(** ** The end marker without metadata *)

(** C7: while the expected count is unset, an end marker only prints the
    no-metadata warning: the handler returns, the globals are unchanged,
    and neither the upload nor the insert is called. *)
Theorem end_marker_without_metadata env utcnow msg g :
  end_marker env msg →
  expected_chunks g = PyNone →
  on_message env utcnow msg g =
    (Ret tt, g, [Print "⚠ No metadata received before end marker"]) ∧
  uploads (on_message env utcnow msg g).2 = [] ∧
  inserts (on_message env utcnow msg g).2 = [].
Proof.
  intros (Hi & Hc & Hp) He.
  by rewrite (on_message_end_no_metadata env utcnow msg g).
Qed.

Lemma end_marker_without_metadata_witness :
  on_message bench noon (chunk_msg []) initial =
    (Ret tt, initial, [Print "⚠ No metadata received before end marker"]) ∧
  uploads (on_message bench noon (chunk_msg []) initial).2 = [] ∧
  inserts (on_message bench noon (chunk_msg []) initial).2 = [].
Proof.
  apply (end_marker_without_metadata bench noon (chunk_msg []) initial).
  - repeat split. discriminate.
  - reflexivity.
Defined.

(** ** The decoded index is a 16-bit number *)

Lemma byte_to_int_bounded b : 0 ≤ byte_to_int b < 256.
Proof.
  unfold byte_to_int. pose proof (Byte.to_N_bounded b). lia.
Qed.

Lemma log2_lt_16 a : 0 ≤ a < 65536 → Z.log2 a < 16.
Proof.
  intros Ha. destruct (decide (a = 0)) as [->|Hne]; [done|].
  apply Z.log2_lt_pow2; lia.
Qed.

Lemma chunk_index_bounded hi lo : 0 ≤ chunk_index hi lo < 65536.
Proof.
  unfold chunk_index.
  pose proof (byte_to_int_bounded hi) as Hhi.
  pose proof (byte_to_int_bounded lo) as Hlo.
  assert (Z.shiftl (byte_to_int hi) 8 = byte_to_int hi * 256) as Hsh
    by (rewrite Z.shiftl_mul_pow2 by lia; done).
  assert (0 ≤ Z.lor (Z.shiftl (byte_to_int hi) 8) (byte_to_int lo)) as Hnn
    by (apply Z.lor_nonneg; lia).
  split; [done|].
  destruct (decide (Z.lor (Z.shiftl (byte_to_int hi) 8) (byte_to_int lo) = 0))
    as [->|Hne]; [done|].
  apply (Z.log2_lt_pow2 _ 16); [lia|].
  rewrite Z.log2_lor by lia.
  apply Z.max_lub_lt; apply log2_lt_16; lia.
Qed.

(** ** The dispatch loop *)

Lemma loop_forever_cons env utcnow msg rest g :
  loop_forever env ((utcnow, msg) :: rest) g =
    match on_message env utcnow msg g with
    | (Ret _, g', t) =>
        ((loop_forever env rest g').1.1, (loop_forever env rest g').1.2,
         t ++ (loop_forever env rest g').2)
    | (Raise e, g', t) => (Raise e, g', t)
    end.
Proof.
  simpl. unfold mbind, M_bind.
  destruct (on_message env utcnow msg g) as [[[[]|e] g'] t]; [|done].
  by destruct (loop_forever env rest g') as [[r g''] t'].
Qed.

Lemma loop_forever_app env first rest : ∀ g g' t,
  loop_forever env first g = (Ret tt, g', t) →
  loop_forever env (first ++ rest) g =
    ((loop_forever env rest g').1.1, (loop_forever env rest g').1.2,
     t ++ (loop_forever env rest g').2).
Proof.
  induction first as [|[utcnow msg] first IH]; intros g g' t.
  - simpl. unfold mret, M_ret. intros [= <- <-].
    by destruct (loop_forever env rest g) as [[r g''] t'].
  - simpl app. rewrite !loop_forever_cons.
    destruct (on_message env utcnow msg g) as [[[[]|e] g1] t1]; [|done].
    destruct (loop_forever env first g1) as [[r g2] t2] eqn:Hfirst.
    simpl. intros [= -> -> <-].
    rewrite (IH g1 g' t2) by done. simpl. by rewrite (assoc_L (++)).
Qed.

(** One chunk message, in either of its two ways out. *)
Lemma on_message_carries env utcnow msg g i data :
  carries env msg i data →
  ∃ e, chunk_log e ∧
    on_message env utcnow msg g =
      (Ret tt, set_received_data (buffer_put (received_data g) (i, data)) g, [e]).
Proof.
  intros (Hi & Hc & hi & lo & Hp & <-). unfold buffer_put. simpl.
  destruct (decide (chunk_index hi lo ∈ dom (received_data g))) as [Hin|Hout].
  - rewrite (on_message_chunk_duplicate env utcnow msg g hi lo data) by done.
    eexists. split; [eexists; by right|]. by destruct g.
  - rewrite (on_message_chunk_fresh env utcnow msg g hi lo data) by done.
    eexists. split; [eexists; by left|]. done.
Qed.

(** A run of chunk messages is handled to its end: each one goes through
    [buffer_put], the other two globals stay, only chunk lines are printed. *)
Lemma loop_forever_chunks env (chunks : list (Z * bytes)) :
  ∀ (arrivals : list (datetime * MQTTMessage)) g,
  Forall2 (λ c a, carries env a.2 c.1 c.2) chunks arrivals →
  ∃ t, Forall chunk_log t ∧
    loop_forever env arrivals g =
      (Ret tt, set_received_data (foldl buffer_put (received_data g) chunks) g, t).
Proof.
  induction chunks as [|[i data] chunks IH]; intros arrivals g Hall.
  - apply Forall2_nil_inv_l in Hall as ->. exists []. split; [done|]. by destruct g.
  - apply Forall2_cons_inv_l in Hall as ([utcnow msg] & rest & Hc & Hrest & ->).
    destruct (on_message_carries env utcnow msg g i data Hc) as (e & He & Hon).
    destruct (IH rest (set_received_data (buffer_put (received_data g) (i, data)) g) Hrest)
      as (t & Ht & Hloop).
    exists (e :: t). split; [by constructor|].
    rewrite loop_forever_cons, Hon, Hloop. done.
Qed.

Lemma chunk_messages_carry env (arrivals : list (datetime * MQTTMessage)) :
  Forall (λ a, chunk_message env a.2) arrivals →
  ∃ chunks : list (Z * bytes), Forall2 (λ c a, carries env a.2 c.1 c.2) chunks arrivals.
Proof.
  induction 1 as [|a arrivals (Hi & Hc & hi & lo & data & Hp) _ [chunks IH]].
  - by exists [].
  - exists ((chunk_index hi lo, data) :: chunks). constructor; [|done].
    repeat split; [done..|]. by exists hi, lo.
Qed.

(** ** Reading what chunk lines leave in a trace *)

Lemma uploads_app t1 t2 : uploads (t1 ++ t2) = uploads t1 ++ uploads t2.
Proof. unfold uploads. apply omap_app. Qed.

Lemma inserts_app t1 t2 : inserts (t1 ++ t2) = inserts t1 ++ inserts t2.
Proof. unfold inserts. apply omap_app. Qed.

Lemma chunk_log_uploads t : Forall chunk_log t → uploads t = [].
Proof.
  induction 1 as [|e t [s [->| ->]] _ IH]; [done|..]; by simpl.
Qed.

Lemma chunk_log_inserts t : Forall chunk_log t → inserts t = [].
Proof.
  induction 1 as [|e t [s [->| ->]] _ IH]; [done|..]; by simpl.
Qed.

Lemma chunk_log_not_missing e : chunk_log e → ¬ missing_report e.
Proof. intros [s [->| ->]] [i Hi]; simpl in Hi; discriminate. Qed.

(** ** What a run of chunks leaves in the buffer *)

Lemma foldl_buffer_put_agrees (data : Z → bytes) order : ∀ received : gmap Z bytes,
  (∀ i d, received !! i = Some d → d = data i) →
  ∀ i, i ∈ order ∨ is_Some (received !! i) →
    foldl buffer_put received ((λ i, (i, data i)) <$> order) !! i = Some (data i).
Proof.
  induction order as [|k order IH]; intros received Hag i Hi; simpl.
  - destruct Hi as [Hi|[d Hd]]; [by apply elem_of_nil in Hi|].
    by rewrite Hd, (Hag i d Hd).
  - apply IH.
    + intros j d. unfold buffer_put. simpl. case_decide as Hk; [by apply Hag|].
      destruct (decide (k = j)) as [->|Hne].
      * rewrite lookup_insert_eq. congruence.
      * rewrite lookup_insert_ne by done. apply Hag.
    + destruct (decide (i = k)) as [->|Hne].
      * right. unfold buffer_put. simpl. case_decide as Hk.
        -- by apply elem_of_dom.
        -- rewrite lookup_insert_eq. by eexists.
      * destruct Hi as [Hin|Hsome]; [left; by apply elem_of_cons in Hin as [?|?]|right].
        unfold buffer_put. simpl. case_decide; [done|].
        by rewrite lookup_insert_ne by done.
Qed.

Lemma loop_forever_single env utcnow msg g :
  loop_forever env [(utcnow, msg)] g = on_message env utcnow msg g.
Proof.
  rewrite loop_forever_cons.
  destruct (on_message env utcnow msg g) as [[[[]|e] g'] t]; [|done].
  simpl. unfold mret, M_ret. simpl. by rewrite app_nil_r.
Qed.

(** Metadata, then chunk messages, then the end marker: the end marker is
    handled on the buffer the chunks have built from empty. *)
Lemma loop_forever_transfer env meta (chunks : list (Z * bytes))
    t_info info (arrivals : list (datetime * MQTTMessage)) t_end fin g0 :
  metadata env info meta →
  Forall2 (λ c a, carries env a.2 c.1 c.2) chunks arrivals →
  ∃ t, Forall chunk_log t ∧
    loop_forever env ((t_info, info) :: arrivals ++ [(t_end, fin)]) g0 =
      let g := set_received_data (foldl buffer_put ∅ chunks) (receiving meta t_info) in
      ((on_message env t_end fin g).1.1, (on_message env t_end fin g).1.2,
       Print ("Expecting " +:+ str (total_chunks meta) +:+ " chunks for " +:+
              str (default (PyStr ("img-" +:+ strftime_YmdHMS t_info)) (meta_image_id meta)))
       :: t ++ (on_message env t_end fin g).2).
Proof.
  intros [Ht Hj] Hall.
  destruct (loop_forever_chunks env chunks arrivals (receiving meta t_info) Hall)
    as (t & Hlog & Hloop).
  exists t. split; [done|].
  rewrite loop_forever_cons, (on_message_info env t_info info g0 meta) by done.
  rewrite (loop_forever_app env arrivals [(t_end, fin)] _ _ t Hloop).
  by rewrite loop_forever_single.
Qed.

(** ** The end marker on a complete buffer *)

Section complete.
Context (env : Env) (utcnow : datetime) (msg : MQTTMessage) (g : Globals).
Context (n : Z) (data : Z → bytes).
Hypothesis Hend : end_marker env msg.
Hypothesis Hexpected : expected_chunks g = PyInt n.
Hypothesis Hall : ∀ i, 0 ≤ i < n → received_data g !! i = Some (data i).

Lemma on_message_end_complete :
  on_message env utcnow msg g =
    let body := mjoin (data <$> range n) in
    let received := Print "End marker received, stitching image" in
    let stitched := Print ("[+] All " +:+ pretty n +:+ " chunks stitched") in
    let upload :=
      StorageUpload (SUPABASE_BUCKET env) (filename_of g) body "image/jpeg" in
    let insert := TableInsert "gxp_raw_observations" (row_of env utcnow g) in
    if storage_upload env (filename_of g) body then
      match table_insert env (row_of env utcnow g) with
      | Some result =>
          (Ret tt, finished g,
           [received; stitched; upload; insert;
            Print ("[✔] Uploaded and inserted record: " +:+ result)])
      | None => (Raise APIError, g, [received; stitched; upload; insert])
      end
    else (Raise StorageException, g, [received; stitched; upload]).
Proof.
  destruct Hend as (Hi & Hc & Hp).
  rewrite (on_message_end env utcnow msg g n) by done.
  rewrite (upload_image_and_insert_stitched env utcnow g n (mjoin (data <$> range n))).
  - simpl. destruct (storage_upload env _ _); [|done].
    by destruct (table_insert env _).
  - done.
  - rewrite (stitch_all _ data) by (intros i Hin; by apply Hall, elem_of_range).
    done.
Qed.

Lemma end_complete_uploads :
  uploads (on_message env utcnow msg g).2 =
    [(SUPABASE_BUCKET env, filename_of g, mjoin (data <$> range n), "image/jpeg")].
Proof.
  rewrite on_message_end_complete. simpl.
  destruct (storage_upload env _ _); [|done].
  by destruct (table_insert env _).
Qed.

Lemma end_complete_inserts :
  storage_upload env (filename_of g) (mjoin (data <$> range n)) = true →
  inserts (on_message env utcnow msg g).2 =
    [("gxp_raw_observations", row_of env utcnow g)].
Proof.
  intros Hup. rewrite on_message_end_complete. simpl. rewrite Hup.
  by destruct (table_insert env _).
Qed.

Lemma end_complete_returns :
  storage_upload env (filename_of g) (mjoin (data <$> range n)) = true →
  is_Some (table_insert env (row_of env utcnow g)) →
  (on_message env utcnow msg g).1 = (Ret tt, finished g).
Proof.
  intros Hup [result Hins]. rewrite on_message_end_complete. simpl.
  by rewrite Hup, Hins.
Qed.

Lemma end_complete_not_missing :
  Forall (λ e, ¬ missing_report e) (on_message env utcnow msg g).2.
Proof.
  rewrite on_message_end_complete. simpl.
  assert (∀ s, ¬ missing_report (Print ("[+] All " +:+ s))) as Hst
    by (intros s [i Hi]; simpl in Hi; discriminate).
  assert (¬ missing_report (Print "End marker received, stitching image")) as Hrc
    by (intros [i Hi]; simpl in Hi; discriminate).
  assert (∀ s, ¬ missing_report (Print ("[✔] Uploaded and inserted record: " +:+ s)))
    as Hok by (intros s [i Hi]; simpl in Hi; discriminate).
  assert (∀ b f body ct, ¬ missing_report (StorageUpload b f body ct)) as Hup
    by (intros ???? [i Hi]; discriminate).
  assert (∀ tb row, ¬ missing_report (TableInsert tb row)) as Hins
    by (intros ?? [i Hi]; discriminate).
  destruct (storage_upload env _ _); [|by repeat constructor].
  destruct (table_insert env _); by repeat constructor.
Qed.
End complete.

(** C1: metadata announcing [n] chunks for transfer [tid], then one chunk
    message for every index of [0, n), each exactly once and in any order,
    then the end marker (in particular for every positive [n]).  The run
    calls the storage upload exactly once, under the key [tid.jpg], with
    the chunks concatenated in index order; when that call returns, the
    record is inserted exactly once, and when the insert returns too the
    handler returns with the expected count unset and the buffer empty. *)
Theorem complete_transfer_uploaded_once env n tid (data : Z → bytes) (order : list Z)
    t_info info (arrivals : list (datetime * MQTTMessage)) t_end fin g0 :
  metadata env info {| total_chunks := PyInt n; meta_image_id := Some (PyStr tid) |} →
  Forall2 (λ i a, carries env a.2 i (data i)) order arrivals →
  order ≡ₚ range n →
  end_marker env fin →
  let run := loop_forever env ((t_info, info) :: arrivals ++ [(t_end, fin)]) g0 in
  let body := mjoin (data <$> range n) in
  let row :=
    {| gxp_id := "dev-default";
       row_image_id := PyStr tid;
       image_url := SUPABASE_URL env +:+ "/storage/v1/object/public/" +:+
                    SUPABASE_BUCKET env +:+ "/" +:+ tid +:+ ".jpg";
       chunk_status := "complete";
       submitted_at := isoformat t_end |} in
  uploads run.2 = [(SUPABASE_BUCKET env, tid +:+ ".jpg", body, "image/jpeg")] ∧
  (storage_upload env (tid +:+ ".jpg") body = true →
   inserts run.2 = [("gxp_raw_observations", row)] ∧
   (is_Some (table_insert env row) →
    run.1 = (Ret tt, {| expected_chunks := PyNone; received_data := ∅;
                        image_id := PyStr tid |}))).
Proof.
  intros Hmeta Hcarry Hperm Hend run body row.
  set (meta := {| total_chunks := PyInt n; meta_image_id := Some (PyStr tid) |}) in *.
  set (chunks := (λ i, (i, data i)) <$> order).
  assert (Forall2 (λ c a, carries env a.2 c.1 c.2) chunks arrivals) as Hchunks
    by (unfold chunks; by apply Forall2_fmap_l).
  destruct (loop_forever_transfer env meta chunks t_info info arrivals t_end fin g0
              Hmeta Hchunks) as (t & Hlog & Hrun).
  fold run in Hrun. simpl in Hrun.
  set (g := set_received_data (foldl buffer_put ∅ chunks) (receiving meta t_info)) in *.
  assert (∀ i, 0 ≤ i < n → received_data g !! i = Some (data i)) as Hall.
  { intros i Hi. simpl. unfold chunks. apply foldl_buffer_put_agrees.
    - intros j d. by rewrite lookup_empty.
    - left. rewrite Hperm. by apply elem_of_range. }
  assert (expected_chunks g = PyInt n) as Hexp by done.
  rewrite Hrun. simpl. split.
  - rewrite (uploads_app t), (chunk_log_uploads t Hlog).
    by rewrite (end_complete_uploads env t_end fin g n data).
  - intros Hup. split.
    + rewrite (inserts_app t), (chunk_log_inserts t Hlog).
      by rewrite (end_complete_inserts env t_end fin g n data).
    + intros Hins.
      by rewrite (end_complete_returns env t_end fin g n data).
Qed.

Lemma complete_transfer_uploaded_once_witness :
  let run :=
    loop_forever bench ((noon, info_msg 3) :: abc_arrivals ++ [(noon, chunk_msg [])])
      initial in
  let row :=
    {| gxp_id := "dev-default";
       row_image_id := PyStr "img-1";
       image_url := SUPABASE_URL bench +:+ "/storage/v1/object/public/" +:+
                    SUPABASE_BUCKET bench +:+ "/" +:+ "img-1" +:+ ".jpg";
       chunk_status := "complete";
       submitted_at := isoformat noon |} in
  uploads run.2 =
    [(SUPABASE_BUCKET bench, "img-1" +:+ ".jpg", mjoin (abc <$> range 3), "image/jpeg")] ∧
  (storage_upload bench ("img-1" +:+ ".jpg") (mjoin (abc <$> range 3)) = true →
   inserts run.2 = [("gxp_raw_observations", row)] ∧
   (is_Some (table_insert bench row) →
    run.1 = (Ret tt, {| expected_chunks := PyNone; received_data := ∅;
                        image_id := PyStr "img-1" |}))).
Proof.
  apply (complete_transfer_uploaded_once bench 3 "img-1" abc [0; 2; 1]
           noon (info_msg 3) abc_arrivals noon (chunk_msg []) initial).
  - split; [reflexivity|]. vm_compute. reflexivity.
  - repeat constructor; try discriminate;
      [exists x00, x00|exists x00, x02|exists x00, x01]; split; reflexivity.
  - change (range 3) with [0; 1; 2]. apply perm_skip, perm_swap.
  - repeat split. discriminate.
Defined.

(** ** A total of zero or less *)

(** C10: after metadata whose [total_chunks] is zero or negative (and any
    chunk messages), the end marker does not report a missing chunk:
    [range] is empty, the transfer counts as stitched, a zero-byte object
    is uploaded exactly once and, the upload call having returned, the
    record is inserted exactly once. *)
Theorem nonpositive_total_uploads_empty env z meta
    t_info info (arrivals : list (datetime * MQTTMessage)) t_end fin g0 :
  metadata env info meta →
  total_chunks meta = PyInt z →
  z ≤ 0 →
  Forall (λ a, chunk_message env a.2) arrivals →
  end_marker env fin →
  let run := loop_forever env ((t_info, info) :: arrivals ++ [(t_end, fin)]) g0 in
  let filename := filename_of (receiving meta t_info) in
  Forall (λ e, ¬ missing_report e) run.2 ∧
  Print ("[+] All " +:+ pretty z +:+ " chunks stitched") ∈ run.2 ∧
  uploads run.2 = [(SUPABASE_BUCKET env, filename, [], "image/jpeg")] ∧
  (storage_upload env filename [] = true →
   inserts run.2 =
     [("gxp_raw_observations", row_of env t_end (receiving meta t_info))]).
Proof.
  intros Hmeta Hz Hle Hchunk Hend run filename.
  destruct (chunk_messages_carry env arrivals Hchunk) as [chunks Hchunks].
  destruct (loop_forever_transfer env meta chunks t_info info arrivals t_end fin g0
              Hmeta Hchunks) as (t & Hlog & Hrun).
  fold run in Hrun. simpl in Hrun.
  set (g := set_received_data (foldl buffer_put ∅ chunks) (receiving meta t_info)) in *.
  assert (∀ i, 0 ≤ i < z → received_data g !! i = Some ((λ _, []) i)) as Hall
    by (intros i Hi; lia).
  assert (expected_chunks g = PyInt z) as Hexp by done.
  pose proof (on_message_end_complete env t_end fin g z (λ _, []) Hend Hexp Hall) as Hon.
  pose proof (end_complete_not_missing env t_end fin g z (λ _, []) Hend Hexp Hall) as Hnm.
  pose proof (end_complete_uploads env t_end fin g z (λ _, []) Hend Hexp Hall) as Hup.
  pose proof (end_complete_inserts env t_end fin g z (λ _, []) Hend Hexp Hall) as Hins.
  rewrite range_nonpos in Hon, Hup, Hins by done. simpl in Hon, Hup, Hins.
  rewrite Hrun. simpl. split; [|split; [|split]].
  - constructor; [intros [i Hi]; simpl in Hi; discriminate|].
    apply Forall_app. split; [|done].
    eapply Forall_impl; [done|]. apply chunk_log_not_missing.
  - apply elem_of_cons. right. apply elem_of_app. right. rewrite Hon.
    destruct (storage_upload env _ _); [|set_solver].
    destruct (table_insert env _); set_solver.
  - by rewrite (uploads_app t), (chunk_log_uploads t Hlog).
  - intros Hok. rewrite (inserts_app t), (chunk_log_inserts t Hlog). by apply Hins.
Qed.

Lemma nonpositive_total_uploads_empty_witness :
  let run :=
    loop_forever bench
      ((noon, info_msg 0) :: [(noon, chunk_msg [x00; x00; x61])] ++ [(noon, chunk_msg [])])
      initial in
  let meta := {| total_chunks := PyInt 0; meta_image_id := Some (PyStr "img-1") |} in
  let filename := filename_of (receiving meta noon) in
  Forall (λ e, ¬ missing_report e) run.2 ∧
  Print ("[+] All " +:+ pretty 0 +:+ " chunks stitched") ∈ run.2 ∧
  uploads run.2 = [(SUPABASE_BUCKET bench, filename, [], "image/jpeg")] ∧
  (storage_upload bench filename [] = true →
   inserts run.2 = [("gxp_raw_observations", row_of bench noon (receiving meta noon))]).
Proof.
  apply (nonpositive_total_uploads_empty bench 0
           {| total_chunks := PyInt 0; meta_image_id := Some (PyStr "img-1") |}
           noon (info_msg 0) [(noon, chunk_msg [x00; x00; x61])] noon (chunk_msg []) initial).
  - split; [reflexivity|]. vm_compute. reflexivity.
  - reflexivity.
  - lia.
  - repeat constructor; [discriminate|]. exists x00, x00, [x61]. reflexivity.
  - repeat split. discriminate.
Defined.

(** ** Metadata during a transfer *)

(** C6: a metadata message overwrites all three globals, whatever they
    held: the handler returns with an empty buffer and the expected count
    and transfer id of the new metadata, it calls neither the upload nor
    the insert, and everything the program does from then on is the same
    as if the earlier buffer had held anything else, so none of the earlier
    chunks can reach an upload. *)
Theorem metadata_discards_prior_transfer env utcnow msg meta g :
  metadata env msg meta →
  (on_message env utcnow msg g).1 =
    (Ret tt,
     {| expected_chunks := total_chunks meta;
        received_data := ∅;
        image_id := default (PyStr ("img-" +:+ strftime_YmdHMS utcnow)) (meta_image_id meta) |}) ∧
  uploads (on_message env utcnow msg g).2 = [] ∧
  inserts (on_message env utcnow msg g).2 = [] ∧
  ∀ g' rest,
    loop_forever env ((utcnow, msg) :: rest) g =
    loop_forever env ((utcnow, msg) :: rest) g'.
Proof.
  intros [Ht Hj].
  rewrite (on_message_info env utcnow msg g meta) by done.
  repeat split. intros g' rest.
  rewrite !loop_forever_cons.
  rewrite (on_message_info env utcnow msg g meta) by done.
  by rewrite (on_message_info env utcnow msg g' meta) by done.
Qed.

Lemma metadata_discards_prior_transfer_witness :
  (on_message bench noon (info_msg 2) (mid_transfer 3 {[0 := [x61]; 1 := [x62]]})).1 =
    (Ret tt,
     {| expected_chunks := PyInt 2; received_data := ∅; image_id := PyStr "img-1" |}) ∧
  uploads (on_message bench noon (info_msg 2)
             (mid_transfer 3 {[0 := [x61]; 1 := [x62]]})).2 = [] ∧
  inserts (on_message bench noon (info_msg 2)
             (mid_transfer 3 {[0 := [x61]; 1 := [x62]]})).2 = [] ∧
  ∀ g' rest,
    loop_forever bench ((noon, info_msg 2) :: rest)
      (mid_transfer 3 {[0 := [x61]; 1 := [x62]]}) =
    loop_forever bench ((noon, info_msg 2) :: rest) g'.
Proof.
  apply (metadata_discards_prior_transfer bench noon (info_msg 2)
           {| total_chunks := PyInt 2; meta_image_id := Some (PyStr "img-1") |}).
  split; [reflexivity|]. vm_compute. reflexivity.
Defined.

(** ** A chunk ahead of its metadata *)

Lemma range_pos n : 0 < n → ∃ rest, range n = 0 :: rest.
Proof.
  intros Hn. unfold range.
  destruct (Z.to_nat n) as [|k] eqn:Hk; [lia|]. by eexists.
Qed.

(** C9 (as the code has it): when a chunk arrives while the expected count
    is unset, the handler returns with the count still unset and the index
    of the chunk in the buffer: its bytes are recorded, unless that index
    is already buffered, in which case the earlier bytes stay, as for any
    duplicate.  The metadata message that follows empties the buffer, so
    the chunk is gone and does not count: with a positive total, an end
    marker right after the metadata reports chunk 0 missing and uploads
    nothing. *)
Theorem early_chunk_buffered_then_discarded env
    t_chunk chunk i data t_info info meta g :
  expected_chunks g = PyNone →
  carries env chunk i data →
  metadata env info meta →
  (on_message env t_chunk chunk g).1 =
    (Ret tt,
     {| expected_chunks := PyNone;
        received_data := buffer_put (received_data g) (i, data);
        image_id := image_id g |}) ∧
  present (on_message env t_chunk chunk g).1.2 i ∧
  (¬ present g i →
   received_data (on_message env t_chunk chunk g).1.2 !! i = Some data) ∧
  (present g i →
   received_data (on_message env t_chunk chunk g).1.2 = received_data g) ∧
  (loop_forever env [(t_chunk, chunk); (t_info, info)] g).1 =
    (Ret tt, receiving meta t_info) ∧
  ∀ n t_end fin,
    total_chunks meta = PyInt n → 0 < n → end_marker env fin →
    let run := loop_forever env [(t_chunk, chunk); (t_info, info); (t_end, fin)] g in
    run.1.1 = Ret tt ∧
    Print "Missing chunk 0" ∈ run.2 ∧
    uploads run.2 = [] ∧ inserts run.2 = [].
Proof.
  intros Hnone Hcarry Hmeta.
  destruct (on_message_carries env t_chunk chunk g i data Hcarry) as (e & Hlog & Hon).
  destruct Hmeta as [Ht Hj].
  split; [|split; [|split; [|split; [|split]]]].
  - rewrite Hon. simpl. unfold set_received_data. by rewrite Hnone.
  - rewrite Hon. unfold present, buffer_put. simpl. case_decide as Hin; [done|].
    simpl. rewrite dom_insert_L. set_solver.
  - intros Habsent. rewrite Hon. unfold buffer_put. simpl.
    rewrite decide_False by done. simpl. by rewrite lookup_insert_eq.
  - intros Hin. rewrite Hon. unfold buffer_put. simpl.
    by rewrite decide_True by done.
  - rewrite loop_forever_cons, Hon, loop_forever_single.
    by rewrite (on_message_info env t_info info _ meta).
  - intros n t_end fin Hn Hpos Hend run. unfold run.
    rewrite loop_forever_cons, Hon, loop_forever_cons.
    rewrite (on_message_info env t_info info _ meta) by done.
    rewrite loop_forever_single.
    destruct Hend as (Hi & Hc & Hp).
    rewrite (on_message_end env t_end fin (receiving meta t_info) n) by done.
    destruct (range_pos n Hpos) as [rest Hrange].
    rewrite (upload_image_and_insert_missing env t_end (receiving meta t_info) n 0).
    + simpl. destruct Hlog as [s [-> | ->]]; repeat split; set_solver.
    + done.
    + by rewrite Hrange.
Qed.

Lemma early_chunk_buffered_then_discarded_witness :
  let g := {| expected_chunks := PyNone; received_data := {[0 := [x61]]};
              image_id := PyNone |} in
  let chunk := chunk_msg [x00; x00; x7a] in
  let meta := {| total_chunks := PyInt 1; meta_image_id := Some (PyStr "img-1") |} in
  (on_message bench noon chunk g).1 =
    (Ret tt,
     {| expected_chunks := PyNone;
        received_data := buffer_put (received_data g) (0, [x7a]);
        image_id := image_id g |}) ∧
  present (on_message bench noon chunk g).1.2 0 ∧
  (¬ present g 0 →
   received_data (on_message bench noon chunk g).1.2 !! 0 = Some [x7a]) ∧
  (present g 0 →
   received_data (on_message bench noon chunk g).1.2 = received_data g) ∧
  (loop_forever bench [(noon, chunk); (noon, info_msg 1)] g).1 =
    (Ret tt, receiving meta noon) ∧
  ∀ n t_end fin,
    total_chunks meta = PyInt n → 0 < n → end_marker bench fin →
    let run := loop_forever bench [(noon, chunk); (noon, info_msg 1); (t_end, fin)] g in
    run.1.1 = Ret tt ∧
    Print "Missing chunk 0" ∈ run.2 ∧
    uploads run.2 = [] ∧ inserts run.2 = [].
Proof.
  apply (early_chunk_buffered_then_discarded bench
           noon (chunk_msg [x00; x00; x7a]) 0 [x7a] noon (info_msg 1)
           {| total_chunks := PyInt 1; meta_image_id := Some (PyStr "img-1") |}).
  - reflexivity.
  - split; [discriminate|]. split; [reflexivity|]. exists x00, x00. split; reflexivity.
  - split; [reflexivity|]. vm_compute. reflexivity.
Defined.

(** C9 fails as stated: chunk 0 of a one-chunk transfer arrives first, then
    its metadata, then the end marker; the chunk was buffered, but the
    transfer does not complete with it: chunk 0 is reported missing and
    nothing is uploaded. *)
Lemma early_chunk_does_not_count :
  loop_forever bench
    [(noon, chunk_msg [x00; x00; x61]); (noon, info_msg 1); (noon, chunk_msg [])]
    initial =
  (Ret tt,
   {| expected_chunks := PyNone; received_data := ∅; image_id := PyStr "img-1" |},
   [Print "Chunk 0 received (1 bytes)";
    Print "Expecting 1 chunks for img-1";
    Print "End marker received, stitching image";
    Print "Missing chunk 0"]).
Proof. vm_compute. reflexivity. Qed.

(** ** How many indices the buffer can hold *)

Lemma keys_16bit_empty g : received_data g = ∅ → keys_16bit g.
Proof.
  intros Hg i. unfold present. rewrite Hg, dom_empty_L. set_solver.
Qed.

(** Whatever the message and whatever the way out, [on_message] keeps
    every key of the buffer a 16-bit index. *)
Lemma on_message_keys_16bit env utcnow msg g :
  keys_16bit g → keys_16bit (on_message env utcnow msg g).1.2.
Proof.
  intros Hg.
  destruct (decide (topic msg = INFO_TOPIC env)) as [Hi|Hi].
  { destruct (json_loads env (payload msg)) as [meta|e] eqn:Hj.
    - rewrite (on_message_info env utcnow msg g meta) by done.
      by apply keys_16bit_empty.
    - by rewrite (on_message_info_raise env utcnow msg g e). }
  destruct (decide (topic msg = CHUNK_TOPIC env)) as [Hc|Hc];
    [|by rewrite on_message_other_topic].
  destruct (payload msg) as [|hi [|lo data]] eqn:Hp.
  - destruct (decide (expected_chunks g = PyNone)) as [He|He];
      [by rewrite on_message_end_no_metadata|].
    rewrite (on_message_end_any env utcnow msg g) by done.
    pose proof (upload_image_and_insert_globals env utcnow g) as Hsame.
    destruct (upload_image_and_insert env utcnow g) as [[[[]|e] g'] t];
      simpl in *; subst g'; [by apply keys_16bit_empty|done].
  - by rewrite (on_message_chunk_short env utcnow msg g hi).
  - destruct (decide (chunk_index hi lo ∈ dom (received_data g))) as [Hin|Hout].
    + by rewrite (on_message_chunk_duplicate env utcnow msg g hi lo data).
    + rewrite (on_message_chunk_fresh env utcnow msg g hi lo data) by done.
      intros i. unfold present. simpl. rewrite dom_insert_L.
      intros [->%elem_of_singleton|Hin]%elem_of_union.
      * apply chunk_index_bounded.
      * by apply Hg.
Qed.

Lemma loop_forever_keys_16bit env arrivals : ∀ g,
  keys_16bit g → keys_16bit (loop_forever env arrivals g).1.2.
Proof.
  induction arrivals as [|[utcnow msg] rest IH]; intros g Hg; [done|].
  rewrite loop_forever_cons.
  pose proof (on_message_keys_16bit env utcnow msg g Hg) as Hstep.
  destruct (on_message env utcnow msg g) as [[[[]|e] g'] t]; simpl in *; [|done].
  by apply IH.
Qed.

Lemma keys_16bit_size g :
  keys_16bit g → Z.of_nat (size (dom (received_data g))) ≤ 65536.
Proof.
  intros Hg.
  assert (dom (received_data g) ⊆ list_to_set (C := gset Z) (range 65536)) as Hsub.
  { intros i Hi. apply elem_of_list_to_set, elem_of_range. by apply Hg. }
  apply subseteq_size in Hsub.
  rewrite size_list_to_set in Hsub by apply NoDup_range.
  rewrite length_range in Hsub. lia.
Qed.

(** C8 (as the code has it): over every sequence of messages from the
    start of the program, every index in the buffer is a 16-bit number, so
    the buffer never holds more than 65536 distinct indices; the expected
    count does not bound it. *)
Theorem buffer_holds_16bit_indices env (arrivals : list (datetime * MQTTMessage)) :
  let g := (loop_forever env arrivals initial).1.2 in
  (∀ i, present g i → 0 ≤ i < 65536) ∧
  Z.of_nat (size (dom (received_data g))) ≤ 65536.
Proof.
  intros g.
  assert (keys_16bit g) as Hg
    by (apply loop_forever_keys_16bit; by apply keys_16bit_empty).
  split; [done|]. by apply keys_16bit_size.
Qed.

(** C8 fails as stated: metadata announces one chunk, then chunks with
    indices 0 and 1 arrive; the expected count is known to be 1 and the
    buffer holds two distinct indices. *)
Lemma buffer_exceeds_expected_count :
  let g :=
    (loop_forever bench
       [(noon, info_msg 1);
        (noon, chunk_msg [x00; x00; x61]);
        (noon, chunk_msg [x00; x01; x62])] initial).1.2 in
  expected_chunks g = PyInt 1 ∧ size (dom (received_data g)) = 2%nat.
Proof. vm_compute. split; reflexivity. Qed.

(** * Further properties of the handler *)

(** ** The two index bytes *)

Lemma shiftl_8_land_byte a b : 0 ≤ b < 256 → Z.land (Z.shiftl a 8) b = 0.
Proof.
  intros Hb. apply Z.bits_inj'. intros k Hk.
  rewrite Z.land_spec, Z.bits_0.
  destruct (decide (k < 8)) as [Hlt|Hge].
  - by rewrite Z.shiftl_spec_low.
  - rewrite (Z.bits_above_log2 b k); [apply andb_false_r|lia|].
    destruct (decide (b = 0)) as [->|Hne]; [simpl; lia|].
    assert (Z.log2 b < 8) by (apply Z.log2_lt_pow2; lia). lia.
Qed.

Lemma chunk_index_value hi lo :
  chunk_index hi lo = 256 * byte_to_int hi + byte_to_int lo.
Proof.
  unfold chunk_index.
  pose proof (byte_to_int_bounded lo) as Hlo.
  pose proof (Z.add_lor_land (Z.shiftl (byte_to_int hi) 8) (byte_to_int lo)) as Hadd.
  rewrite shiftl_8_land_byte in Hadd by done.
  rewrite Z.shiftl_mul_pow2 in Hadd by lia.
  rewrite Z.shiftl_mul_pow2 by lia. lia.
Qed.

Lemma byte_to_int_inj b1 b2 : byte_to_int b1 = byte_to_int b2 → b1 = b2.
Proof.
  unfold byte_to_int. intros Heq.
  assert (Byte.to_N b1 = Byte.to_N b2) as HN by lia.
  pose proof (Byte.of_to_N b1) as H1. pose proof (Byte.of_to_N b2) as H2.
  rewrite HN in H1. congruence.
Qed.

Lemma byte_of_int z : 0 ≤ z < 256 → ∃ b, byte_to_int b = z.
Proof.
  intros Hz. destruct (Byte.of_N (Z.to_N z)) as [b|] eqn:Hb.
  - exists b. unfold byte_to_int. apply Byte.to_of_N in Hb. rewrite Hb. lia.
  - apply Byte.of_N_None_iff in Hb. lia.
Qed.

(** X1: the index of a chunk is its first two bytes read as a big-endian
    unsigned 16-bit number: 256 times the first byte plus the second. *)
Theorem chunk_index_big_endian hi lo :
  chunk_index hi lo = 256 * byte_to_int hi + byte_to_int lo ∧
  chunk_index hi lo `div` 256 = byte_to_int hi ∧
  chunk_index hi lo `mod` 256 = byte_to_int lo.
Proof.
  pose proof (byte_to_int_bounded hi) as Hhi.
  pose proof (byte_to_int_bounded lo) as Hlo.
  rewrite chunk_index_value. split; [done|]. split.
  - symmetry. apply (Z.div_unique _ 256 _ (byte_to_int lo)); lia.
  - symmetry. apply (Z.mod_unique _ 256 (byte_to_int hi)); lia.
Qed.

(** X2: the decoding is one-to-one and onto [0, 65536): every 16-bit index
    is carried by exactly one pair of bytes, so two chunk messages collide
    in the buffer only when their two index bytes are the same. *)
Theorem chunk_index_bijective :
  (∀ hi lo hi' lo', chunk_index hi lo = chunk_index hi' lo' → hi = hi' ∧ lo = lo') ∧
  (∀ i, 0 ≤ i < 65536 → ∃ hi lo, chunk_index hi lo = i).
Proof.
  split.
  - intros hi lo hi' lo'. rewrite !chunk_index_value.
    pose proof (byte_to_int_bounded hi). pose proof (byte_to_int_bounded lo).
    pose proof (byte_to_int_bounded hi'). pose proof (byte_to_int_bounded lo').
    intros Heq. split; apply byte_to_int_inj; lia.
  - intros i Hi.
    destruct (byte_of_int (i `div` 256)) as [hi Hhi].
    { split; [apply Z.div_pos; lia|apply Z.div_lt_upper_bound; lia]. }
    destruct (byte_of_int (i `mod` 256)) as [lo Hlo].
    { apply Z.mod_pos_bound. lia. }
    exists hi, lo. rewrite chunk_index_value, Hhi, Hlo.
    pose proof (Z.div_mod i 256). lia.
Qed.

(** ** What a run of chunk messages leaves in the buffer *)

(** Folding [buffer_put] keeps what was there and adds, for every other
    index, the bytes of its first occurrence in the list. *)
Lemma foldl_buffer_put_union chunks : ∀ received : gmap Z bytes,
  foldl buffer_put received chunks = received ∪ list_to_map chunks.
Proof.
  induction chunks as [|[k d] chunks IH]; intros received; simpl.
  - by rewrite (right_id_L ∅ (∪)).
  - rewrite IH. unfold buffer_put. simpl. case_decide as Hk.
    + apply elem_of_dom in Hk as [d' Hd']. apply map_eq. intros i.
      rewrite !lookup_union. destruct (decide (i = k)) as [->|Hne].
      * rewrite Hd'. by destruct (list_to_map chunks !! k), (<[k:=d]> _ !! k).
      * by rewrite lookup_insert_ne.
    + apply not_elem_of_dom in Hk.
      by rewrite <-insert_union_l, insert_union_r.
Qed.

Lemma list_to_map_first (pre post : list (Z * bytes)) i d :
  i ∉ pre.*1 →
  list_to_map (M := gmap Z bytes) (pre ++ (i, d) :: post) !! i = Some d.
Proof.
  intros Hpre. rewrite list_to_map_app, lookup_union.
  apply not_elem_of_list_to_map in Hpre. rewrite Hpre.
  rewrite list_to_map_cons, lookup_insert_eq. done.
Qed.

(** X3: a run of chunk messages is handled to its end and overwrites
    nothing: every index the buffer already held keeps its bytes, and every
    other index gets the bytes of the first message that carries it, later
    arrivals of that index being skipped. *)
Theorem chunks_first_arrival_wins env (chunks : list (Z * bytes))
    (arrivals : list (datetime * MQTTMessage)) g :
  Forall2 (λ c a, carries env a.2 c.1 c.2) chunks arrivals →
  let g' := (loop_forever env arrivals g).1.2 in
  (loop_forever env arrivals g).1.1 = Ret tt ∧
  expected_chunks g' = expected_chunks g ∧
  image_id g' = image_id g ∧
  received_data g ⊆ received_data g' ∧
  ∀ pre i d post,
    chunks = pre ++ (i, d) :: post → i ∉ pre.*1 → ¬ present g i →
    received_data g' !! i = Some d.
Proof.
  intros Hall g'.
  destruct (loop_forever_chunks env chunks arrivals g Hall) as (t & _ & Hloop).
  unfold g'. rewrite Hloop. simpl. rewrite foldl_buffer_put_union.
  repeat split.
  - apply map_union_subseteq_l.
  - intros pre i d post -> Hpre Habsent.
    rewrite lookup_union. apply not_elem_of_dom in Habsent. rewrite Habsent.
    by rewrite list_to_map_first.
Qed.

Lemma chunks_first_arrival_wins_witness :
  let g := mid_transfer 3 {[0 := [x61]]} in
  let arrivals :=
    [(noon, chunk_msg [x00; x01; x62]);
     (noon, chunk_msg [x00; x00; x7a]);
     (noon, chunk_msg [x00; x01; x7a])] in
  let chunks := [(1, [x62]); (0, [x7a]); (1, [x7a])] in
  let g' := (loop_forever bench arrivals g).1.2 in
  (loop_forever bench arrivals g).1.1 = Ret tt ∧
  expected_chunks g' = expected_chunks g ∧
  image_id g' = image_id g ∧
  received_data g ⊆ received_data g' ∧
  ∀ pre i d post,
    chunks = pre ++ (i, d) :: post → i ∉ pre.*1 → ¬ present g i →
    received_data g' !! i = Some d.
Proof.
  apply (chunks_first_arrival_wins bench [(1, [x62]); (0, [x7a]); (1, [x7a])]).
  repeat constructor; try discriminate; simpl;
    [exists x00, x01|exists x00, x00|exists x00, x01]; split; reflexivity.
Defined.

(** X4: the order in which chunks with pairwise distinct indices arrive does
    not matter for what is buffered: two runs that deliver the same chunks
    in different orders end in the same globals. *)
Theorem arrival_order_irrelevant env (chunks1 chunks2 : list (Z * bytes))
    (arrivals1 arrivals2 : list (datetime * MQTTMessage)) g :
  Forall2 (λ c a, carries env a.2 c.1 c.2) chunks1 arrivals1 →
  Forall2 (λ c a, carries env a.2 c.1 c.2) chunks2 arrivals2 →
  NoDup chunks1.*1 →
  chunks1 ≡ₚ chunks2 →
  (loop_forever env arrivals1 g).1 = (loop_forever env arrivals2 g).1.
Proof.
  intros Hall1 Hall2 Hnodup Hperm.
  destruct (loop_forever_chunks env chunks1 arrivals1 g Hall1) as (t1 & _ & ->).
  destruct (loop_forever_chunks env chunks2 arrivals2 g Hall2) as (t2 & _ & ->).
  simpl. rewrite !foldl_buffer_put_union.
  by rewrite (list_to_map_proper chunks1 chunks2).
Qed.

Lemma arrival_order_irrelevant_witness :
  (loop_forever bench abc_arrivals (mid_transfer 3 ∅)).1 =
  (loop_forever bench
     [(noon, chunk_msg [x00; x01; x62]);
      (noon, chunk_msg [x00; x00; x61]);
      (noon, chunk_msg [x00; x02; x63])] (mid_transfer 3 ∅)).1.
Proof.
  apply (arrival_order_irrelevant bench
           [(0, [x61]); (2, [x63]); (1, [x62])]
           [(1, [x62]); (0, [x61]); (2, [x63])]).
  - repeat constructor; try discriminate; simpl;
      [exists x00, x00|exists x00, x02|exists x00, x01]; split; reflexivity.
  - repeat constructor; try discriminate; simpl;
      [exists x00, x01|exists x00, x00|exists x00, x02]; split; reflexivity.
  - apply (bool_decide_unpack _). vm_compute. exact I.
  - etrans; [apply perm_skip, perm_swap|]. apply perm_swap.
Defined.

(** ** What the reassembly looks at *)

Lemma stitch_ext (m1 m2 : gmap Z bytes) indices : ∀ acc,
  (∀ i, i ∈ indices → m1 !! i = m2 !! i) →
  stitch m1 indices acc = stitch m2 indices acc.
Proof.
  induction indices as [|k rest IH]; intros acc Hag; [done|]. simpl.
  rewrite <-(Hag k) by set_solver.
  destruct (m1 !! k); [|done]. apply IH. intros i Hi. apply Hag. set_solver.
Qed.

Lemma stitch_inr_body (received : gmap Z bytes) indices : ∀ acc body,
  stitch received indices acc = inr body →
  body = acc ++ mjoin ((λ i, default [] (received !! i)) <$> indices).
Proof.
  induction indices as [|k rest IH]; intros acc body; simpl.
  - intros [= <-]. by rewrite app_nil_r.
  - destruct (received !! k) as [chunk|]; [|done].
    intros Hs%IH. by rewrite Hs, <-(assoc_L (++)).
Qed.

(** X5: what the buffer holds under indices outside [0, expected_chunks)
    is never looked at by the reassembly: two states that agree on the
    expected count, the image id and the chunks 0..n-1 finalize alike, with
    the same outcome and the same prints, upload and insert. *)
Theorem indices_out_of_range_ignored env utcnow n g1 g2 :
  same_transfer n g1 g2 →
  (upload_image_and_insert env utcnow g1).1.1 =
    (upload_image_and_insert env utcnow g2).1.1 ∧
  (upload_image_and_insert env utcnow g1).2 =
    (upload_image_and_insert env utcnow g2).2.
Proof.
  intros (He1 & He2 & Hid & Hag).
  assert (stitch (received_data g1) (range n) [] =
          stitch (received_data g2) (range n) []) as Hst
    by (apply stitch_ext; intros i Hi; by apply Hag, elem_of_range).
  destruct (stitch (received_data g2) (range n) []) as [i|body] eqn:Hs2.
  - rewrite (upload_image_and_insert_missing env utcnow g1 n i) by done.
    by rewrite (upload_image_and_insert_missing env utcnow g2 n i).
  - rewrite (upload_image_and_insert_stitched env utcnow g1 n body) by done.
    rewrite (upload_image_and_insert_stitched env utcnow g2 n body) by done.
    unfold row_of, filename_of. rewrite Hid. simpl.
    destruct (storage_upload env _ body); [|done].
    by destruct (table_insert env _).
Qed.

Lemma indices_out_of_range_ignored_witness :
  (upload_image_and_insert bench noon (mid_transfer 2 {[0 := [x61]; 1 := [x62]]})).1.1 =
    (upload_image_and_insert bench noon
       (mid_transfer 2 {[0 := [x61]; 1 := [x62]; 7 := [x7a]]})).1.1 ∧
  (upload_image_and_insert bench noon (mid_transfer 2 {[0 := [x61]; 1 := [x62]]})).2 =
    (upload_image_and_insert bench noon
       (mid_transfer 2 {[0 := [x61]; 1 := [x62]; 7 := [x7a]]})).2.
Proof.
  apply (indices_out_of_range_ignored bench noon 2).
  repeat split. intros i Hi.
  assert (i = 0 ∨ i = 1) as [-> | ->] by lia; reflexivity.
Defined.

(** X6: [upload_image_and_insert] calls the storage upload exactly when the
    buffer holds every index of [0, expected_chunks), and then once, with
    the buffered chunks 0..n-1 joined in that order; otherwise it makes no
    upload and no insert. *)
Theorem upload_iff_complete env utcnow g n :
  expected_chunks g = PyInt n →
  (incomplete g n ∧
   uploads (upload_image_and_insert env utcnow g).2 = [] ∧
   inserts (upload_image_and_insert env utcnow g).2 = []) ∨
  ((∀ i, 0 ≤ i < n → present g i) ∧
   uploads (upload_image_and_insert env utcnow g).2 =
     [(SUPABASE_BUCKET env, filename_of g,
       mjoin ((λ i, default [] (received_data g !! i)) <$> range n),
       "image/jpeg")]).
Proof.
  intros He.
  destruct (stitch (received_data g) (range n) []) as [i|body] eqn:Hs.
  - left. rewrite (upload_image_and_insert_missing env utcnow g n i) by done.
    repeat split. apply stitch_seq_inl in Hs as (Hi & Hnone & _).
    exists i. split; [lia|]. unfold present. by apply not_elem_of_dom.
  - right. split.
    + intros i Hi. unfold present. apply elem_of_dom.
      eapply stitch_inr; [done|]. by apply elem_of_range.
    + rewrite (upload_image_and_insert_stitched env utcnow g n body) by done.
      apply stitch_inr_body in Hs. simpl in Hs. subst body. simpl.
      destruct (storage_upload env _ _); [|done].
      by destruct (table_insert env _).
Qed.

Lemma upload_iff_complete_witness :
  let g := mid_transfer 2 {[0 := [x61]; 1 := [x62]; 7 := [x7a]]} in
  (incomplete g 2 ∧
   uploads (upload_image_and_insert bench noon g).2 = [] ∧
   inserts (upload_image_and_insert bench noon g).2 = []) ∨
  ((∀ i, 0 ≤ i < 2 → present g i) ∧
   uploads (upload_image_and_insert bench noon g).2 =
     [(SUPABASE_BUCKET bench, filename_of g,
       mjoin ((λ i, default [] (received_data g !! i)) <$> range 2),
       "image/jpeg")]).
Proof.
  apply (upload_iff_complete bench noon _ 2). reflexivity.
Defined.

(** ** After the end marker *)

(** X7: finalization fires once.  When the end marker has been handled to
    its end on a state with an expected count, the count is unset and the
    buffer empty, so a second end marker only prints the no-metadata
    warning: it uploads and inserts nothing. *)
Theorem second_end_marker_is_noop env t1 fin1 t2 fin2 g :
  end_marker env fin1 →
  end_marker env fin2 →
  expected_chunks g ≠ PyNone →
  (on_message env t1 fin1 g).1.1 = Ret tt →
  loop_forever env [(t1, fin1); (t2, fin2)] g =
    (Ret tt, finished g,
     (on_message env t1 fin1 g).2 ++
     [Print "⚠ No metadata received before end marker"]) ∧
  uploads (loop_forever env [(t1, fin1); (t2, fin2)] g).2 =
    uploads (on_message env t1 fin1 g).2 ∧
  inserts (loop_forever env [(t1, fin1); (t2, fin2)] g).2 =
    inserts (on_message env t1 fin1 g).2.
Proof.
  intros (Hi1 & Hc1 & Hp1) (Hi2 & Hc2 & Hp2) He Hret.
  rewrite loop_forever_cons.
  rewrite (on_message_end_any env t1 fin1 g) in * by done.
  pose proof (upload_image_and_insert_globals env t1 g) as Hsame.
  destruct (upload_image_and_insert env t1 g) as [[[[]|e] g'] t];
    cbn [fst snd] in *; [subst g'|done].
  rewrite loop_forever_single.
  rewrite (on_message_end_no_metadata env t2 fin2 (finished g)) by done.
  cbn [fst snd]. split; [done|].
  change (Print "End marker received, stitching image" :: t ++
          [Print "⚠ No metadata received before end marker"])
    with ((Print "End marker received, stitching image" :: t) ++
          [Print "⚠ No metadata received before end marker"]).
  rewrite uploads_app, inserts_app. simpl. by rewrite !app_nil_r.
Qed.

Lemma second_end_marker_is_noop_witness :
  let g := mid_transfer 2 {[0 := [x61]; 1 := [x62]]} in
  loop_forever bench [(noon, chunk_msg []); (noon, chunk_msg [])] g =
    (Ret tt, finished g,
     (on_message bench noon (chunk_msg []) g).2 ++
     [Print "⚠ No metadata received before end marker"]) ∧
  uploads (loop_forever bench [(noon, chunk_msg []); (noon, chunk_msg [])] g).2 =
    uploads (on_message bench noon (chunk_msg []) g).2 ∧
  inserts (loop_forever bench [(noon, chunk_msg []); (noon, chunk_msg [])] g).2 =
    inserts (on_message bench noon (chunk_msg []) g).2.
Proof.
  apply (second_end_marker_is_noop bench noon (chunk_msg []) noon (chunk_msg [])).
  - repeat split. discriminate.
  - repeat split. discriminate.
  - discriminate.
  - vm_compute. reflexivity.
Defined.

(** ** When the storage calls raise *)

(** X8: when the upload call raises on a complete buffer, the exception
    leaves [on_message] right there: the insert is never called, the
    expected count and the buffered chunks are still in place (the two
    resetting assignments after the call are not reached), and the
    dispatch loop handles none of the later messages. *)
Theorem upload_failure_keeps_buffers env utcnow fin g n (data : Z → bytes) rest :
  end_marker env fin →
  expected_chunks g = PyInt n →
  (∀ i, 0 ≤ i < n → received_data g !! i = Some (data i)) →
  storage_upload env (filename_of g) (mjoin (data <$> range n)) = false →
  loop_forever env ((utcnow, fin) :: rest) g =
    (Raise StorageException, g,
     [Print "End marker received, stitching image";
      Print ("[+] All " +:+ pretty n +:+ " chunks stitched");
      StorageUpload (SUPABASE_BUCKET env) (filename_of g)
        (mjoin (data <$> range n)) "image/jpeg"]) ∧
  inserts (loop_forever env ((utcnow, fin) :: rest) g).2 = [].
Proof.
  intros Hend He Hall Hdown.
  rewrite loop_forever_cons.
  rewrite (on_message_end_complete env utcnow fin g n data) by done.
  simpl. by rewrite Hdown.
Qed.

Lemma upload_failure_keeps_buffers_witness :
  let g := mid_transfer 3 {[0 := [x61]; 1 := [x62]; 2 := [x63]]} in
  loop_forever bench_storage_down ((noon, chunk_msg []) :: [(noon, info_msg 2)]) g =
    (Raise StorageException, g,
     [Print "End marker received, stitching image";
      Print ("[+] All " +:+ pretty 3 +:+ " chunks stitched");
      StorageUpload (SUPABASE_BUCKET bench_storage_down) (filename_of g)
        (mjoin (abc <$> range 3)) "image/jpeg"]) ∧
  inserts (loop_forever bench_storage_down
             ((noon, chunk_msg []) :: [(noon, info_msg 2)]) g).2 = [].
Proof.
  apply (upload_failure_keeps_buffers bench_storage_down noon (chunk_msg [])
           (mid_transfer 3 {[0 := [x61]; 1 := [x62]; 2 := [x63]]}) 3 abc).
  - repeat split. discriminate.
  - reflexivity.
  - intros i Hi. assert (i = 0 ∨ i = 1 ∨ i = 2) as [-> | [-> | ->]] by lia; reflexivity.
  - reflexivity.
Defined.

(** X9: when the upload returns and the insert raises, the object has been
    uploaded once and the insert attempted once; the exception leaves
    [on_message] with the expected count and the buffer still in place. *)
Theorem insert_failure_after_upload env utcnow fin g n (data : Z → bytes) rest :
  end_marker env fin →
  expected_chunks g = PyInt n →
  (∀ i, 0 ≤ i < n → received_data g !! i = Some (data i)) →
  storage_upload env (filename_of g) (mjoin (data <$> range n)) = true →
  table_insert env (row_of env utcnow g) = None →
  (loop_forever env ((utcnow, fin) :: rest) g).1 = (Raise APIError, g) ∧
  uploads (loop_forever env ((utcnow, fin) :: rest) g).2 =
    [(SUPABASE_BUCKET env, filename_of g, mjoin (data <$> range n), "image/jpeg")] ∧
  inserts (loop_forever env ((utcnow, fin) :: rest) g).2 =
    [("gxp_raw_observations", row_of env utcnow g)].
Proof.
  intros Hend He Hall Hup Hdown.
  rewrite loop_forever_cons.
  rewrite (on_message_end_complete env utcnow fin g n data) by done.
  simpl. by rewrite Hup, Hdown.
Qed.

Lemma insert_failure_after_upload_witness :
  let g := mid_transfer 3 {[0 := [x61]; 1 := [x62]; 2 := [x63]]} in
  (loop_forever bench_table_down ((noon, chunk_msg []) :: [(noon, info_msg 2)]) g).1 =
    (Raise APIError, g) ∧
  uploads (loop_forever bench_table_down
             ((noon, chunk_msg []) :: [(noon, info_msg 2)]) g).2 =
    [(SUPABASE_BUCKET bench_table_down, filename_of g, mjoin (abc <$> range 3),
      "image/jpeg")] ∧
  inserts (loop_forever bench_table_down
             ((noon, chunk_msg []) :: [(noon, info_msg 2)]) g).2 =
    [("gxp_raw_observations", row_of bench_table_down noon g)].
Proof.
  apply (insert_failure_after_upload bench_table_down noon (chunk_msg [])
           (mid_transfer 3 {[0 := [x61]; 1 := [x62]; 2 := [x63]]}) 3 abc).
  - repeat split. discriminate.
  - reflexivity.
  - intros i Hi. assert (i = 0 ∨ i = 1 ∨ i = 2) as [-> | [-> | ->]] by lia; reflexivity.
  - reflexivity.
  - reflexivity.
Defined.

(** ** Counting the storage calls of a run *)

Lemma upload_image_and_insert_counts env utcnow g :
  (length (inserts (upload_image_and_insert env utcnow g).2) ≤
   length (uploads (upload_image_and_insert env utcnow g).2))%nat ∧
  (length (uploads (upload_image_and_insert env utcnow g).2) ≤ 1)%nat.
Proof.
  unfold upload_image_and_insert. unfold_M.
  destruct (py_range (expected_chunks g)) as [indices|e]; [|simpl; lia].
  destruct (stitch (received_data g) indices []) as [i|body]; [simpl; lia|]. simpl.
  destruct (storage_upload env _ body); [|simpl; lia].
  destruct (table_insert env _); simpl; lia.
Qed.

Lemma on_message_counts env utcnow msg g :
  (length (inserts (on_message env utcnow msg g).2) ≤
   length (uploads (on_message env utcnow msg g).2))%nat ∧
  (length (uploads (on_message env utcnow msg g).2) ≤
   if decide (end_marker env msg) then 1 else 0)%nat.
Proof.
  destruct (decide (topic msg = INFO_TOPIC env)) as [Hi|Hi].
  { destruct (json_loads env (payload msg)) as [meta|e] eqn:Hj.
    - rewrite (on_message_info env utcnow msg g meta) by done. simpl. lia.
    - rewrite (on_message_info_raise env utcnow msg g e) by done. simpl. lia. }
  destruct (decide (topic msg = CHUNK_TOPIC env)) as [Hc|Hc];
    [|rewrite on_message_other_topic by done; simpl; lia].
  destruct (payload msg) as [|hi [|lo data]] eqn:Hp.
  - rewrite decide_True by done.
    destruct (decide (expected_chunks g = PyNone)) as [He|He];
      [rewrite on_message_end_no_metadata by done; simpl; lia|].
    rewrite (on_message_end_any env utcnow msg g) by done.
    pose proof (upload_image_and_insert_counts env utcnow g) as Hcount.
    destruct (upload_image_and_insert env utcnow g) as [[[[]|e] g'] t];
      simpl in *; lia.
  - rewrite (on_message_chunk_short env utcnow msg g hi) by done. simpl. lia.
  - destruct (decide (chunk_index hi lo ∈ dom (received_data g))) as [Hin|Hout].
    + rewrite (on_message_chunk_duplicate env utcnow msg g hi lo data) by done.
      simpl. lia.
    + rewrite (on_message_chunk_fresh env utcnow msg g hi lo data) by done.
      simpl. lia.
Qed.

(** X10: in every run, from any state, an insert only ever follows an
    upload and an upload only ever answers an end marker: there are never
    more inserts than uploads, nor more uploads than end markers among the
    messages. *)
Theorem storage_calls_bounded env (arrivals : list (datetime * MQTTMessage)) g :
  (length (inserts (loop_forever env arrivals g).2) ≤
   length (uploads (loop_forever env arrivals g).2))%nat ∧
  (length (uploads (loop_forever env arrivals g).2) ≤ end_markers env arrivals)%nat.
Proof.
  revert g. induction arrivals as [|[utcnow msg] rest IH]; intros g.
  - simpl. lia.
  - rewrite loop_forever_cons.
    pose proof (on_message_counts env utcnow msg g) as [Hins Hup].
    assert (end_markers env ((utcnow, msg) :: rest) =
            ((if decide (end_marker env msg) then 1 else 0) +
             end_markers env rest)%nat) as ->.
    { unfold end_markers. rewrite filter_cons. simpl.
      destruct (decide (end_marker env msg)); simpl; lia. }
    destruct (on_message env utcnow msg g) as [[[[]|e] g'] t]; cbn [fst snd] in *.
    + destruct (IH g') as [IHins IHup].
      rewrite uploads_app, inserts_app, !length_app. lia.
    + lia.
Qed.

(** ** The image id *)

(** X11: when the metadata has an [image_id] key whose value is JSON
    [null], [meta.get] returns that [None] and the clock default is not
    taken: the expected count is set while the image id is [None], and a
    complete transfer is uploaded once under [None.jpg], with a row whose
    image id is [None]. *)
Theorem null_image_id_uploads_None_jpg env n (data : Z → bytes) (order : list Z)
    t_info info (arrivals : list (datetime * MQTTMessage)) t_end fin g0 :
  metadata env info {| total_chunks := PyInt n; meta_image_id := Some PyNone |} →
  Forall2 (λ i a, carries env a.2 i (data i)) order arrivals →
  order ≡ₚ range n →
  end_marker env fin →
  let run := loop_forever env ((t_info, info) :: arrivals ++ [(t_end, fin)]) g0 in
  let body := mjoin (data <$> range n) in
  (on_message env t_info info g0).1 =
    (Ret tt,
     {| expected_chunks := PyInt n; received_data := ∅; image_id := PyNone |}) ∧
  uploads run.2 = [(SUPABASE_BUCKET env, "None.jpg", body, "image/jpeg")] ∧
  (storage_upload env "None.jpg" body = true →
   inserts run.2 =
     [("gxp_raw_observations",
       {| gxp_id := "dev-default";
          row_image_id := PyNone;
          image_url := SUPABASE_URL env +:+ "/storage/v1/object/public/" +:+
                       SUPABASE_BUCKET env +:+ "/" +:+ "None.jpg";
          chunk_status := "complete";
          submitted_at := isoformat t_end |})]).
Proof.
  intros Hmeta Hcarry Hperm Hend run body.
  set (meta := {| total_chunks := PyInt n; meta_image_id := Some PyNone |}) in *.
  split.
  { destruct Hmeta as [Ht Hj].
    by rewrite (on_message_info env t_info info g0 meta). }
  set (chunks := (λ i, (i, data i)) <$> order).
  assert (Forall2 (λ c a, carries env a.2 c.1 c.2) chunks arrivals) as Hchunks
    by (unfold chunks; by apply Forall2_fmap_l).
  destruct (loop_forever_transfer env meta chunks t_info info arrivals t_end fin g0
              Hmeta Hchunks) as (t & Hlog & Hrun).
  fold run in Hrun. simpl in Hrun.
  set (g := set_received_data (foldl buffer_put ∅ chunks) (receiving meta t_info)) in *.
  assert (∀ i, 0 ≤ i < n → received_data g !! i = Some (data i)) as Hall.
  { intros i Hi. simpl. unfold chunks. apply foldl_buffer_put_agrees.
    - intros j d. by rewrite lookup_empty.
    - left. rewrite Hperm. by apply elem_of_range. }
  assert (expected_chunks g = PyInt n) as Hexp by done.
  rewrite Hrun. simpl. split.
  - rewrite (uploads_app t), (chunk_log_uploads t Hlog).
    by rewrite (end_complete_uploads env t_end fin g n data).
  - intros Hup.
    rewrite (inserts_app t), (chunk_log_inserts t Hlog).
    by rewrite (end_complete_inserts env t_end fin g n data).
Qed.

Lemma null_image_id_uploads_None_jpg_witness :
  let info := {| topic := "esp32cam/image/info"; payload := null_id_json |} in
  let run :=
    loop_forever bench_null_id
      ((noon, info) :: [(noon, chunk_msg [x00; x00; x61])] ++ [(noon, chunk_msg [])])
      initial in
  let body := mjoin (abc <$> range 1) in
  (on_message bench_null_id noon info initial).1 =
    (Ret tt,
     {| expected_chunks := PyInt 1; received_data := ∅; image_id := PyNone |}) ∧
  uploads run.2 = [(SUPABASE_BUCKET bench_null_id, "None.jpg", body, "image/jpeg")] ∧
  (storage_upload bench_null_id "None.jpg" body = true →
   inserts run.2 =
     [("gxp_raw_observations",
       {| gxp_id := "dev-default";
          row_image_id := PyNone;
          image_url := SUPABASE_URL bench_null_id +:+ "/storage/v1/object/public/" +:+
                       SUPABASE_BUCKET bench_null_id +:+ "/" +:+ "None.jpg";
          chunk_status := "complete";
          submitted_at := isoformat noon |})]).
Proof.
  apply (null_image_id_uploads_None_jpg bench_null_id 1 abc [0]
           noon {| topic := "esp32cam/image/info"; payload := null_id_json |}
           [(noon, chunk_msg [x00; x00; x61])]).
  - split; [reflexivity|]. vm_compute. reflexivity.
  - repeat constructor; try discriminate. exists x00, x00. split; reflexivity.
  - reflexivity.
  - repeat split. discriminate.
Defined.

(** X12: when the metadata has no [image_id] key, the id is made from the
    clock at the moment the metadata message is handled: a complete
    transfer is then uploaded once under [img-<that time>.jpg], while the
    inserted row is stamped with the time of the end marker. *)
Theorem anonymous_transfer_named_by_clock env n (data : Z → bytes) (order : list Z)
    t_info info (arrivals : list (datetime * MQTTMessage)) t_end fin g0 :
  metadata env info {| total_chunks := PyInt n; meta_image_id := None |} →
  Forall2 (λ i a, carries env a.2 i (data i)) order arrivals →
  order ≡ₚ range n →
  end_marker env fin →
  let run := loop_forever env ((t_info, info) :: arrivals ++ [(t_end, fin)]) g0 in
  let id := "img-" +:+ strftime_YmdHMS t_info in
  let body := mjoin (data <$> range n) in
  uploads run.2 = [(SUPABASE_BUCKET env, id +:+ ".jpg", body, "image/jpeg")] ∧
  (storage_upload env (id +:+ ".jpg") body = true →
   inserts run.2 =
     [("gxp_raw_observations",
       {| gxp_id := "dev-default";
          row_image_id := PyStr id;
          image_url := SUPABASE_URL env +:+ "/storage/v1/object/public/" +:+
                       SUPABASE_BUCKET env +:+ "/" +:+ id +:+ ".jpg";
          chunk_status := "complete";
          submitted_at := isoformat t_end |})]).
Proof.
  intros Hmeta Hcarry Hperm Hend run id body.
  set (meta := {| total_chunks := PyInt n; meta_image_id := None |}) in *.
  set (chunks := (λ i, (i, data i)) <$> order).
  assert (Forall2 (λ c a, carries env a.2 c.1 c.2) chunks arrivals) as Hchunks
    by (unfold chunks; by apply Forall2_fmap_l).
  destruct (loop_forever_transfer env meta chunks t_info info arrivals t_end fin g0
              Hmeta Hchunks) as (t & Hlog & Hrun).
  fold run in Hrun. simpl in Hrun.
  set (g := set_received_data (foldl buffer_put ∅ chunks) (receiving meta t_info)) in *.
  assert (∀ i, 0 ≤ i < n → received_data g !! i = Some (data i)) as Hall.
  { intros i Hi. simpl. unfold chunks. apply foldl_buffer_put_agrees.
    - intros j d. by rewrite lookup_empty.
    - left. rewrite Hperm. by apply elem_of_range. }
  assert (expected_chunks g = PyInt n) as Hexp by done.
  rewrite Hrun. simpl. split.
  - rewrite (uploads_app t), (chunk_log_uploads t Hlog).
    by rewrite (end_complete_uploads env t_end fin g n data).
  - intros Hup.
    rewrite (inserts_app t), (chunk_log_inserts t Hlog).
    by rewrite (end_complete_inserts env t_end fin g n data).
Qed.

Lemma anonymous_transfer_named_by_clock_witness :
  let late := {| strftime_YmdHMS := "20250101120500"; isoformat := "2025-01-01T12:05:00" |} in
  let run :=
    loop_forever bench_anonymous
      ((noon, anonymous_msg "2") ::
       [(noon, chunk_msg [x00; x01; x62]); (noon, chunk_msg [x00; x00; x61])] ++
       [(late, chunk_msg [])]) initial in
  let id := "img-" +:+ strftime_YmdHMS noon in
  let body := mjoin (abc <$> range 2) in
  uploads run.2 = [(SUPABASE_BUCKET bench_anonymous, id +:+ ".jpg", body, "image/jpeg")] ∧
  (storage_upload bench_anonymous (id +:+ ".jpg") body = true →
   inserts run.2 =
     [("gxp_raw_observations",
       {| gxp_id := "dev-default";
          row_image_id := PyStr id;
          image_url := SUPABASE_URL bench_anonymous +:+ "/storage/v1/object/public/" +:+
                       SUPABASE_BUCKET bench_anonymous +:+ "/" +:+ id +:+ ".jpg";
          chunk_status := "complete";
          submitted_at := isoformat late |})]).
Proof.
  apply (anonymous_transfer_named_by_clock bench_anonymous 2 abc [1; 0]
           noon (anonymous_msg "2")
           [(noon, chunk_msg [x00; x01; x62]); (noon, chunk_msg [x00; x00; x61])]).
  - split; [reflexivity|]. vm_compute. reflexivity.
  - repeat constructor; try discriminate;
      [exists x00, x01|exists x00, x00]; split; reflexivity.
  - change (range 2) with [0; 1]. apply perm_swap.
  - repeat split. discriminate.
Defined.

(** ** Metadata whose total is [null] *)

(** X13: metadata whose [total_chunks] is JSON [null] clears the buffer and
    leaves the expected count unset.  Chunks that follow are buffered, and
    the end marker then takes the no-metadata way out although metadata
    had arrived: it warns, uploads and inserts nothing, and leaves the
    buffered chunks where they are. *)
Theorem null_total_counts_as_no_metadata env meta (chunks : list (Z * bytes))
    t_info info (arrivals : list (datetime * MQTTMessage)) t_end fin g0 :
  metadata env info meta →
  total_chunks meta = PyNone →
  Forall2 (λ c a, carries env a.2 c.1 c.2) chunks arrivals →
  end_marker env fin →
  let run := loop_forever env ((t_info, info) :: arrivals ++ [(t_end, fin)]) g0 in
  run.1 =
    (Ret tt,
     {| expected_chunks := PyNone;
        received_data := list_to_map chunks;
        image_id := image_id (receiving meta t_info) |}) ∧
  last run.2 = Some (Print "⚠ No metadata received before end marker") ∧
  uploads run.2 = [] ∧
  inserts run.2 = [].
Proof.
  intros Hmeta Hnull Hchunks (Hi & Hc & Hp) run.
  destruct (loop_forever_transfer env meta chunks t_info info arrivals t_end fin g0
              Hmeta Hchunks) as (t & Hlog & Hrun).
  fold run in Hrun. simpl in Hrun.
  rewrite (on_message_end_no_metadata env t_end fin) in Hrun by done.
  rewrite Hrun. simpl. rewrite foldl_buffer_put_union, (left_id_L ∅ (∪)).
  unfold set_received_data, receiving. simpl. rewrite Hnull.
  split; [done|]. split.
  - rewrite last_cons, last_snoc. done.
  - rewrite (uploads_app t), (inserts_app t).
    by rewrite (chunk_log_uploads t Hlog), (chunk_log_inserts t Hlog).
Qed.

Lemma null_total_counts_as_no_metadata_witness :
  let meta := {| total_chunks := PyNone; meta_image_id := None |} in
  let run :=
    loop_forever bench_anonymous
      ((noon, anonymous_msg "null") :: [(noon, chunk_msg [x00; x00; x61])] ++
       [(noon, chunk_msg [])]) (mid_transfer 3 {[1 := [x62]]}) in
  run.1 =
    (Ret tt,
     {| expected_chunks := PyNone;
        received_data := list_to_map [(0, [x61])];
        image_id := image_id (receiving meta noon) |}) ∧
  last run.2 = Some (Print "⚠ No metadata received before end marker") ∧
  uploads run.2 = [] ∧
  inserts run.2 = [].
Proof.
  apply (null_total_counts_as_no_metadata bench_anonymous
           {| total_chunks := PyNone; meta_image_id := None |} [(0, [x61])]
           noon (anonymous_msg "null") [(noon, chunk_msg [x00; x00; x61])]).
  - split; [reflexivity|]. vm_compute. reflexivity.
  - reflexivity.
  - repeat constructor; try discriminate. exists x00, x00. split; reflexivity.
  - repeat split. discriminate.
Defined.

(** ** When the handler raises, and when it does not *)





(** X19: a [total_chunks] that is not an integer (a float, a string, a
    list) is accepted when the metadata arrives: it is stored and printed,
    and chunks are buffered as usual.  The end marker then prints its
    first line and [range] raises [TypeError]: nothing is uploaded or
    inserted, the expected count and the buffer are not reset, and no
    later message is handled. *)
Theorem non_integer_total_raises_at_end_marker env meta (chunks : list (Z * bytes))
    t_info info (arrivals : list (datetime * MQTTMessage)) t_end fin rest g0 :
  metadata env info meta →
  ¬ count_or_none (total_chunks meta) →
  Forall2 (λ c a, carries env a.2 c.1 c.2) chunks arrivals →
  end_marker env fin →
  let run :=
    loop_forever env ((t_info, info) :: arrivals ++ (t_end, fin) :: rest) g0 in
  run.1 =
    (Raise TypeError,
     {| expected_chunks := total_chunks meta;
        received_data := list_to_map chunks;
        image_id := image_id (receiving meta t_info) |}) ∧
  last run.2 = Some (Print "End marker received, stitching image") ∧
  uploads run.2 = [] ∧
  inserts run.2 = [].
Proof.
  intros [Ht Hj] Hcount Hchunks (Hi & Hc & Hp) run. unfold run.
  destruct (loop_forever_chunks env chunks arrivals (receiving meta t_info) Hchunks)
    as (t & Hlog & Hloop).
  rewrite loop_forever_cons, (on_message_info env t_info info g0 meta) by done.
  rewrite (loop_forever_app env arrivals _ _ _ t Hloop).
  rewrite loop_forever_cons.
  set (g := set_received_data (foldl buffer_put (received_data (receiving meta t_info))
                                 chunks) (receiving meta t_info)).
  assert (expected_chunks g = total_chunks meta) as Hexp by done.
  assert (py_range (expected_chunks g) = Raise TypeError) as Hrange
    by (rewrite Hexp; by destruct (total_chunks meta)).
  rewrite (on_message_end_any env t_end fin g); [|done..|].
  2: { rewrite Hexp. intros Hnone. rewrite Hnone in Hcount. by apply Hcount. }
  rewrite (upload_image_and_insert_type_error env t_end g TypeError Hrange).
  cbn [fst snd]. unfold g. simpl.
  rewrite foldl_buffer_put_union, (left_id_L ∅ (∪)).
  split; [done|]. split.
  - rewrite last_cons, last_snoc. done.
  - rewrite (uploads_app t), (inserts_app t).
    by rewrite (chunk_log_uploads t Hlog), (chunk_log_inserts t Hlog).
Qed.

Lemma non_integer_total_raises_at_end_marker_witness :
  let meta := {| total_chunks := PyOther "2.5"; meta_image_id := None |} in
  let run :=
    loop_forever bench_anonymous
      ((noon, anonymous_msg "2.5") :: [(noon, chunk_msg [x00; x00; x61])] ++
       (noon, chunk_msg []) :: [(noon, anonymous_msg "2")]) initial in
  run.1 =
    (Raise TypeError,
     {| expected_chunks := total_chunks meta;
        received_data := list_to_map [(0, [x61])];
        image_id := image_id (receiving meta noon) |}) ∧
  last run.2 = Some (Print "End marker received, stitching image") ∧
  uploads run.2 = [] ∧
  inserts run.2 = [].
Proof.
  apply (non_integer_total_raises_at_end_marker bench_anonymous
           {| total_chunks := PyOther "2.5"; meta_image_id := None |} [(0, [x61])]
           noon (anonymous_msg "2.5") [(noon, chunk_msg [x00; x00; x61])]).
  - split; [reflexivity|]. vm_compute. reflexivity.
  - intros H. exact H.
  - repeat constructor; try discriminate. exists x00, x00. split; reflexivity.
  - repeat split. discriminate.
Defined.

(** ** Messages on other topics *)

Lemma loop_forever_app_raise env first rest : ∀ g e g' t,
  loop_forever env first g = (Raise e, g', t) →
  loop_forever env (first ++ rest) g = (Raise e, g', t).
Proof.
  induction first as [|[utcnow msg] first IH]; intros g e g' t; [done|].
  simpl app. rewrite !loop_forever_cons.
  destruct (on_message env utcnow msg g) as [[[[]|e1] g1] t1]; [|done].
  destruct (loop_forever env first g1) as [[[[]|e2] g2] t2] eqn:Hfirst; [done|].
  cbn [fst snd]. intros [= -> -> <-].
  by rewrite (IH g1 e g' t2 Hfirst).
Qed.

(** X15: a message on a topic that is neither the info topic nor the chunk
    topic is ignored wherever it arrives: taking it out of the sequence
    changes neither the outcome, nor the globals, nor anything printed,
    uploaded or inserted. *)
Theorem other_topic_ignored env utcnow msg
    (before after : list (datetime * MQTTMessage)) g :
  topic msg ≠ INFO_TOPIC env →
  topic msg ≠ CHUNK_TOPIC env →
  loop_forever env (before ++ (utcnow, msg) :: after) g =
  loop_forever env (before ++ after) g.
Proof.
  intros Hi Hc.
  destruct (loop_forever env before g) as [[[[]|e] g'] t] eqn:Hbefore.
  - rewrite !(loop_forever_app env before _ g g' t Hbefore).
    rewrite loop_forever_cons, (on_message_other_topic env utcnow msg g') by done.
    by destruct (loop_forever env after g') as [[r g''] t'].
  - by rewrite !(loop_forever_app_raise env before _ g e g' t Hbefore).
Qed.

Lemma other_topic_ignored_witness :
  loop_forever bench
    ([(noon, info_msg 1)] ++
     (noon, {| topic := "esp32cam/status"; payload := [x6f; x6b] |}) ::
     [(noon, chunk_msg [x00; x00; x61]); (noon, chunk_msg [])]) initial =
  loop_forever bench
    ([(noon, info_msg 1)] ++
     [(noon, chunk_msg [x00; x00; x61]); (noon, chunk_msg [])]) initial.
Proof.
  apply (other_topic_ignored bench); discriminate.
Defined.

(** ** Silence *)


(** ** Both topics set to the same name *)

(** X17: when [INFO_TOPIC] and [CHUNK_TOPIC] are configured to the same
    name, the info test comes first and takes every message on it: no
    chunk is ever added to the buffer, and no run ever uploads or inserts
    anything. *)
Theorem one_topic_never_uploads env (arrivals : list (datetime * MQTTMessage)) g :
  INFO_TOPIC env = CHUNK_TOPIC env →
  let run := loop_forever env arrivals g in
  uploads run.2 = [] ∧ inserts run.2 = [] ∧
  received_data run.1.2 ⊆ received_data g.
Proof.
  intros Hsame. revert g.
  induction arrivals as [|[utcnow msg] rest IH]; intros g; [done|].
  cbn zeta. rewrite loop_forever_cons.
  assert ((on_message env utcnow msg g).1.2 = g ∧ (on_message env utcnow msg g).2 = [] ∨
          ∃ meta, on_message env utcnow msg g =
            (Ret tt, receiving meta utcnow,
             [Print ("Expecting " +:+ str (total_chunks meta) +:+ " chunks for " +:+
                     str (default (PyStr ("img-" +:+ strftime_YmdHMS utcnow)) (meta_image_id meta)))]))
    as Hstep.
  { destruct (decide (topic msg = INFO_TOPIC env)) as [Hi|Hi].
    - destruct (json_loads env (payload msg)) as [meta|e] eqn:Hj.
      + right. exists meta. by apply on_message_info.
      + left. by rewrite (on_message_info_raise env utcnow msg g e).
    - left. rewrite on_message_other_topic; [done..|congruence]. }
  destruct (IH (on_message env utcnow msg g).1.2) as (IHup & IHins & IHsub).
  destruct Hstep as [[Hg Ht]|[meta Hon]].
  - destruct (on_message env utcnow msg g) as [[[[]|e] g'] t];
      cbn [fst snd] in *; subst; [|done].
    by rewrite app_nil_l.
  - rewrite Hon in *. cbn [fst snd] in *.
    rewrite uploads_app, inserts_app, IHup, IHins.
    repeat split. etrans; [done|]. apply map_empty_subseteq.
Qed.

Lemma one_topic_never_uploads_witness :
  let run :=
    loop_forever bench_one_topic
      [(noon, {| topic := "esp32cam/image"; payload := info_json 1 "img-1" |});
       (noon, {| topic := "esp32cam/image"; payload := [x00; x00; x61] |});
       (noon, {| topic := "esp32cam/image"; payload := [] |})] initial in
  uploads run.2 = [] ∧ inserts run.2 = [] ∧
  received_data run.1.2 ⊆ received_data initial.
Proof.
  apply (one_topic_never_uploads bench_one_topic). reflexivity.
Defined.

(** ** One transfer after another *)

(** X18: a metadata message starts afresh.  Once the messages before it
    have been handled, what the program does from the metadata on (its
    outcome, its globals, and everything it prints, uploads and inserts)
    is what it would do on the same messages from the start of the
    program; nothing of the earlier transfers carries over. *)
Theorem metadata_starts_afresh env utcnow info meta
    (before after : list (datetime * MQTTMessage)) g :
  metadata env info meta →
  (loop_forever env before g).1.1 = Ret tt →
  let fresh := loop_forever env ((utcnow, info) :: after) initial in
  (loop_forever env (before ++ (utcnow, info) :: after) g).1 = fresh.1 ∧
  (loop_forever env (before ++ (utcnow, info) :: after) g).2 =
    (loop_forever env before g).2 ++ fresh.2.
Proof.
  intros [Ht Hj] Hret fresh.
  destruct (loop_forever env before g) as [[[[]|e] g'] t] eqn:Hbefore; [|done].
  rewrite (loop_forever_app env before _ g g' t Hbefore).
  unfold fresh. rewrite !loop_forever_cons.
  rewrite (on_message_info env utcnow info g' meta) by done.
  by rewrite (on_message_info env utcnow info initial meta) by done.
Qed.

Lemma metadata_starts_afresh_witness :
  let before := [(noon, info_msg 3); (noon, chunk_msg [x00; x01; x62])] in
  let after := [(noon, chunk_msg [x00; x00; x61]); (noon, chunk_msg [])] in
  let fresh := loop_forever bench ((noon, info_msg 1) :: after) initial in
  (loop_forever bench (before ++ (noon, info_msg 1) :: after) initial).1 = fresh.1 ∧
  (loop_forever bench (before ++ (noon, info_msg 1) :: after) initial).2 =
    (loop_forever bench before initial).2 ++ fresh.2.
Proof.
  apply (metadata_starts_afresh bench noon (info_msg 1)
           {| total_chunks := PyInt 1; meta_image_id := Some (PyStr "img-1") |}).
  - split; [reflexivity|]. vm_compute. reflexivity.
  - vm_compute. reflexivity.
Defined.
